(** * TurnBack benchmark: dataset, models and evaluator

    A shallow embedding of [src/turnback/dataset.py], [src/turnback/models.py]
    and [src/turnback/evaluation.py].

    - Python [float] is IEEE 754 binary64: Rocq's primitive [float], whose
      operations round to nearest, ties to even, like the C doubles below
      CPython.
    - Python [int] is [Z].
    - A [dict] with string keys is a [gmap string _]; the dynamically typed
      values that flow through the dictionaries are [pyval].
    - The list object held by a [RouteDataset] lives in a store, so that
      aliasing ([self.routes = routes]) and in-place [append] are visible.
    - Calls to [logger] and exceptions are explicit: a computation maps a
      [world] to an [outcome] and a new [world]. *)

From Stdlib Require Import ZArith PrimFloat FloatOps SpecFloat.
From stdpp Require Import gmap strings list fin_maps pretty.

Set Warnings "-inexact-float,-register-all".
Set Default Proof Using "Type".

Local Open Scope Z_scope.

(** ** Python numbers *)

Module PyNum.

(** [float(z)]: the binary64 value nearest to the integer [z]
    (ties to even); [OverflowError] (here [None]) when out of range. *)
Definition float_of_int (z : Z) : option float :=
  match binary_normalize prec emax z 0 false with
  | S754_infinity _ | S754_nan => None
  | sf => Some (SF2Prim sf)
  end.

(** [a / b] on two ints: the correctly rounded quotient.  [None] stands
    for [ZeroDivisionError] or [OverflowError]. *)
Definition int_truediv (a b : Z) : option float :=
  let sf (z : Z) :=
    match z with
    | Z0 => S754_zero false
    | Zpos p => S754_finite false p 0
    | Zneg p => S754_finite true p 0
    end in
  match b with
  | Z0 => None
  | _ =>
      match SFdiv prec emax (sf a) (sf b) with
      | S754_infinity _ | S754_nan => None
      | q => Some (SF2Prim q)
      end
  end.

(** Nearest integer to [num / den] ([den > 0]), ties to even. *)
Definition div_half_even (num den : Z) : Z :=
  let q := num / den in
  let r := num mod den in
  match 2 * r ?= den with
  | Lt => q
  | Gt => q + 1
  | Eq => if Z.even q then q else q + 1
  end.

(** [round(x, ndigits)] for a float [x] and [0 <= ndigits]: CPython
    prints [x] to [ndigits] decimals, correctly rounded (half to even on
    the exact binary value), and reads the decimal back, correctly
    rounded.  Both steps are done here on exact integers. *)
Definition round_ndigits (x : float) (ndigits : Z) : float :=
  match Prim2SF x with
  | S754_finite s m e =>
      let scale := 10 ^ ndigits in
      let n :=
        if 0 <=? e then Z.pos m * 2 ^ e * scale
        else div_half_even (Z.pos m * scale) (2 ^ (- e)) in
      match n, scale with
      | Zpos pn, Zpos ps =>
          SF2Prim (SFdiv prec emax (S754_finite s pn 0) (S754_finite false ps 0))
      | _, _ => SF2Prim (S754_zero s)
      end
  | _ => x
  end.

End PyNum.

(** ** Dynamically typed values *)

Inductive pyval : Type :=
  | PNone
  | PBool (b : bool)
  | PInt (z : Z)
  | PFloat (f : float)
  | PStr (s : string)
  | PList (l : list pyval)
  | PDict (d : gmap string pyval).

(** An f-string before rendering: literal text and the values formatted
    into it.  Rendering is not modelled; the fragments stand for the
    string where the formatted values are floats, strings, ints of
    ordinary size or [None], whose formatting cannot fail. *)
Inductive fragment : Type :=
  | Lit (s : string)
  | Fmt (v : pyval).

Definition fstring := list fragment.

(** ** Data model ([dataset.py]) *)

Record RoutePoint : Type := {
  latitude : float;
  longitude : float;
  timestamp : option string;
  point_metadata : option (gmap string pyval)
}.

Record Route : Type := {
  route_id : string;
  points : list RoutePoint;
  start_point : RoutePoint;
  end_point : RoutePoint;
  difficulty : string;
  region : string;
  metadata : option (gmap string pyval)
}.

(** ** The world a call runs in

    A [RouteDataset] keeps a reference to the list object it was built
    from; list objects are stored by address.  [Route] and [RoutePoint]
    objects are never assigned to after construction anywhere in the
    package, so they are kept as values.  The [trace] records, oldest
    first, what a call does beyond computing: calls to the [logging]
    module and files opened (the scripts open configuration and result
    files; nothing in the package does). *)

Abbreviation loc := positive.

Inductive level : Type := DEBUG | INFO | ERROR.

Inductive event : Type :=
  | LogCall (logger : string) (lvl : level) (msg : fstring)
  | FileOpen (path : string) (mode : string).

Record world : Type := {
  heap : gmap loc (list Route);
  trace : list event
}.

Inductive exn : Type :=
  | IndexError
  | KeyError
  | AttributeError
  | TypeError
  | ValueError
  | OverflowError
  | ZeroDivisionError.

(** [Stuck] is a read through an address that holds no list; a Python
    reference always points to a live object, so it stands for a world
    that is not well formed, not for a Python exception. *)
Inductive outcome (A : Type) : Type :=
  | Returns (a : A)
  | Raises (e : exn)
  | Stuck.
Arguments Returns {A} a.
Arguments Raises {A} e.
Arguments Stuck {A}.

Definition M (A : Type) : Type := world → outcome A * world.

#[global] Instance M_ret : MRet M := λ A a σ, (Returns a, σ).

#[global] Instance M_bind : MBind M := λ A B k c σ,
  match c σ with
  | (Returns a, σ') => k a σ'
  | (Raises e, σ') => (Raises e, σ')
  | (Stuck, σ') => (Stuck, σ')
  end.

Definition raise {A} (e : exn) : M A := λ σ, (Raises e, σ).

Definition lift_option {A} (e : exn) (o : option A) : M A :=
  match o with
  | Some a => mret a
  | None => raise e
  end.

(** [logger.info(msg)] and [logger.debug(msg)] of the module whose
    [__name__] is [logger]. *)
Definition log (logger : string) (lvl : level) (msg : fstring) : M () := λ σ,
  (Returns (), {| heap := heap σ; trace := trace σ ++ [LogCall logger lvl msg] |}).

(** Evaluating a list display or comprehension: a new list object. *)
Definition new_list (rs : list Route) : M loc := λ σ,
  let l := fresh (dom (heap σ)) in
  (Returns l, {| heap := <[l := rs]> (heap σ); trace := trace σ |}).

Definition read_list (l : loc) : M (list Route) := λ σ,
  match heap σ !! l with
  | Some rs => (Returns rs, σ)
  | None => (Stuck, σ)
  end.

(** [l.append(r)], in place. *)
Definition append (l : loc) (r : Route) : M () := λ σ,
  match heap σ !! l with
  | Some rs => (Returns (), {| heap := <[l := rs ++ [r]]> (heap σ); trace := trace σ |})
  | None => (Stuck, σ)
  end.

(** [for x in xs: body], with the loop's local variables in [s]. *)
Fixpoint for_each {A S : Type} (body : S → A → M S) (s : S) (xs : list A) : M S :=
  match xs with
  | [] => mret s
  | x :: xs' => s' ← body s x; for_each body s' xs'
  end.

(** ** Built-in operations *)

(** [len(rs)]. *)
Definition len {A} (rs : list A) : Z := Z.of_nat (length rs).

(** [rs[idx]]: a negative index counts from the end. *)
Definition getitem {A} (rs : list A) (idx : Z) : M A :=
  let i := if idx <? 0 then idx + len rs else idx in
  if (i <? 0) || (len rs <=? i) then raise IndexError
  else lift_option IndexError (rs !! Z.to_nat i).

(** [xs.count(x)] and [xs.index(x)] on a list of strings. *)
Definition count (x : string) (xs : list string) : Z :=
  len (filter (λ y, y = x) xs).

Fixpoint index (x : string) (xs : list string) : M Z :=
  match xs with
  | [] => raise ValueError
  | y :: xs' => if decide (y = x) then mret 0 else i ← index x xs'; mret (i + 1)
  end.

(** [d.get(k, default)] on a dict. *)
Definition dict_get (d : gmap string pyval) (k : string) (default : pyval) : pyval :=
  match d !! k with
  | Some v => v
  | None => default
  end.

(** [v.get(k)] on an arbitrary value: only a dict has the method. *)
Definition method_get (v : pyval) (k : string) : M pyval :=
  match v with
  | PDict d => mret (dict_get d k PNone)
  | _ => raise AttributeError
  end.

(** [range(n)]. *)
Definition range (n : Z) : list Z := Z.of_nat <$> seq 0 (Z.to_nat n).

(** [i * f] for an int [i] and a float [f]: the int is converted first. *)
Definition int_mul_float (i : Z) (f : float) : M float :=
  x ← lift_option OverflowError (PyNum.float_of_int i);
  mret (x * f)%float.

(** [f"{i:03d}"]: decimal, sign first, padded with zeros to three
    characters. *)
Definition format_03d (i : Z) : string :=
  let digits := pretty (Z.abs_N i) in
  let sign := if i <? 0 then "-" else "" in
  let width := (3 - String.length sign - String.length digits)%nat in
  sign +:+ String.concat "" (replicate width "0") +:+ digits.

(** ** [dataset.py] *)

Definition dataset_logger : string := "turnback.dataset".

Record RouteDataset : Type := { routes : loc }.

Module RouteDataset.

Definition __init__ (routes : loc) : M RouteDataset :=
  rs ← read_list routes;
  log dataset_logger INFO
    [Lit "Initialized dataset with "; Fmt (PInt (len rs)); Lit " routes"];;
  mret {| routes := routes |}.

Definition __len__ (self : RouteDataset) : M Z :=
  rs ← read_list (routes self);
  mret (len rs).

Definition __getitem__ (self : RouteDataset) (idx : Z) : M Route :=
  rs ← read_list (routes self);
  getitem rs idx.

Definition filter_by_difficulty (self : RouteDataset) (wanted : string) : M RouteDataset :=
  rs ← read_list (routes self);
  filtered_routes ← new_list (filter (λ route, difficulty route = wanted) rs);
  __init__ filtered_routes.

Definition filter_by_region (self : RouteDataset) (wanted : string) : M RouteDataset :=
  rs ← read_list (routes self);
  filtered_routes ← new_list (filter (λ route, region route = wanted) rs);
  __init__ filtered_routes.

(** [{x: xs.count(x) for x in set(xs)}]. *)
Definition distribution (xs : list string) : gmap string Z :=
  set_to_map (λ x, (x, count x xs)) (list_to_set xs : gset string).

Definition get_statistics (self : RouteDataset) : M (gmap string pyval) :=
  rs ← read_list (routes self);
  let difficulties := difficulty <$> rs in
  let regions := region <$> rs in
  mret (<["total_routes" := PInt (len rs)]>
       (<["difficulty_distribution" := PDict (PInt <$> distribution difficulties)]>
       (<["region_distribution" := PDict (PInt <$> distribution regions)]> ∅))).

End RouteDataset.

Definition sample_route (i : Z) : M Route :=
  dlat ← int_mul_float i 0.01;
  dlon ← int_mul_float i 0.01;
  let start_point :=
    {| latitude := 40.7128 + dlat; longitude := -74.0060 + dlon;
       timestamp := None; point_metadata := None |}%float in
  dlat' ← int_mul_float i 0.01;
  dlon' ← int_mul_float i 0.01;
  let end_point :=
    {| latitude := 40.7228 + dlat'; longitude := -74.0160 + dlon';
       timestamp := None; point_metadata := None |}%float in
  level ← getitem ["easy"; "medium"; "hard"] (i `mod` 3);
  mret {| route_id := "route_" +:+ format_03d i;
          points := [start_point; end_point];
          start_point := start_point;
          end_point := end_point;
          difficulty := level;
          region := "New York";
          metadata := Some {["sample" := PBool true]} |}.

Definition load_dataset (dataset_name : string) (data_path : option string) : M RouteDataset :=
  log dataset_logger INFO [Lit "Loading dataset: "; Fmt (PStr dataset_name)];;
  sample_routes ← new_list [];
  for_each (λ _ i, route ← sample_route i; append sample_routes route) () (range 10);;
  dataset ← RouteDataset.__init__ sample_routes;
  n ← RouteDataset.__len__ dataset;
  log dataset_logger INFO [Lit "Loaded "; Fmt (PInt n); Lit " routes"];;
  mret dataset.

(** ** [models.py] *)

Definition models_logger : string := "turnback.models".

(** The two concrete subclasses of the abstract [BaseModel]; the
    attribute [model_name] of a [HumanBaselineModel] is set by its
    constructor to a fixed string. *)
Inductive BaseModel : Type :=
  | LLMModel (name : string) (api_key : option string) (config : gmap string pyval)
  | HumanBaselineModel.

Definition model_name (self : BaseModel) : string :=
  match self with
  | LLMModel name _ _ => name
  | HumanBaselineModel => "human_baseline"
  end.

Module LLM.

Definition _initialize_client (name : string) : M () :=
  log models_logger INFO [Lit "Initializing client for "; Fmt (PStr name)].

Definition __init__ (name : string) (api_key : option string)
    (kwargs : gmap string pyval) : M BaseModel :=
  log models_logger INFO [Lit "Initialized model: "; Fmt (PStr name)];;
  _initialize_client name;;
  mret (LLMModel name api_key kwargs).

Definition prepare_input (route_data : gmap string pyval) : M fstring :=
  let start_point := dict_get route_data "start_point" (PDict ∅) in
  let end_point := dict_get route_data "end_point" (PDict ∅) in
  start_lat ← method_get start_point "latitude";
  start_lon ← method_get start_point "longitude";
  end_lat ← method_get end_point "latitude";
  end_lon ← method_get end_point "longitude";
  mret [Lit "
You are an expert in geospatial navigation and route planning. Given the following information about a route, please determine the most likely path taken.

Start Point: Latitude "; Fmt start_lat; Lit ", Longitude "; Fmt start_lon; Lit "
End Point: Latitude "; Fmt end_lat; Lit ", Longitude "; Fmt end_lon; Lit "

Task: Work backwards from the destination to determine the route that was most likely taken to reach this endpoint from the starting point.

Please provide:
1. A step-by-step description of the likely route
2. Key intermediate waypoints or landmarks
3. Your confidence level (0-1)
4. Reasoning for your route choice

Response:"].

Definition predict (route_data : gmap string pyval) : M (gmap string pyval) :=
  prompt ← prepare_input route_data;
  let prediction : gmap string pyval :=
    <["predicted_route" := PStr "Sample prediction"]>
    (<["confidence" := PFloat 0.85]>
    (<["reasoning" := PStr "This is a placeholder reasoning"]>
    (<["intermediate_points" := PList []]> ∅))) in
  log models_logger DEBUG
    [Lit "Generated prediction for route ";
     Fmt (dict_get route_data "route_id" (PStr "unknown"))];;
  mret prediction.

End LLM.

Module HumanBaseline.

Definition __init__ : M BaseModel :=
  log models_logger INFO [Lit "Initialized model: "; Fmt (PStr "human_baseline")];;
  mret HumanBaselineModel.

Definition predict (route_data : gmap string pyval) : M (gmap string pyval) :=
  mret (<["predicted_route" := PStr "Human baseline prediction"]>
       (<["confidence" := PFloat 0.90]>
       (<["reasoning" := PStr "Human expert analysis"]>
       (<["intermediate_points" := PList []]> ∅)))).

Definition prepare_input (route_data : gmap string pyval) : M fstring :=
  mret [Lit "Human annotation task description"].

End HumanBaseline.

(** Method dispatch on the class of [self]. *)
Definition predict (self : BaseModel) (route_data : gmap string pyval) : M (gmap string pyval) :=
  match self with
  | LLMModel _ _ _ => LLM.predict route_data
  | HumanBaselineModel => HumanBaseline.predict route_data
  end.

Definition prepare_input (self : BaseModel) (route_data : gmap string pyval) : M fstring :=
  match self with
  | LLMModel _ _ _ => LLM.prepare_input route_data
  | HumanBaselineModel => HumanBaseline.prepare_input route_data
  end.

(** ** Arithmetic on dynamically typed operands *)

(** The float an operand of a float operation is converted to. *)
Definition as_float (v : pyval) : M float :=
  match v with
  | PFloat f => mret f
  | PInt z => lift_option OverflowError (PyNum.float_of_int z)
  | PBool b => mret (if b then 1 else 0)%float
  | _ => raise TypeError
  end.

(** [w * v] for a float [w]. *)
Definition float_mul (w : float) (v : pyval) : M float :=
  g ← as_float v;
  mret (w * g)%float.

(** [v / n] for an int [n]. *)
Definition div_int (v : pyval) (n : Z) : M float :=
  let ints (z : Z) :=
    if decide (n = 0) then raise ZeroDivisionError
    else lift_option OverflowError (PyNum.int_truediv z n) in
  match v with
  | PInt z => ints z
  | PBool b => ints (if b then 1 else 0)
  | PFloat f =>
      d ← lift_option OverflowError (PyNum.float_of_int n);
      if decide (n = 0) then raise ZeroDivisionError else mret (f / d)%float
  | _ => raise TypeError
  end.

(** [max(0, y)] for a float [y]: the first argument stays unless the
    second is greater. *)
Definition max_0 (y : float) : pyval :=
  if (0 <? y)%float then PFloat y else PInt 0.

(** ** [evaluation.py] *)

Definition evaluation_logger : string := "turnback.evaluation".

Record RouteEvaluator : Type := {
  config : gmap string pyval;
  metrics : list string
}.

Module RouteEvaluator.

Definition __init__ (config : gmap string pyval) : M RouteEvaluator :=
  log evaluation_logger INFO [Lit "Route evaluator initialized"];;
  mret {| config := config;
          metrics := ["accuracy"; "spatial_accuracy"; "semantic_similarity";
                      "route_deviation"; "landmark_recognition"] |}.

Definition point_to_dict (p : RoutePoint) : pyval :=
  PDict (<["latitude" := PFloat (latitude p)]>
        (<["longitude" := PFloat (longitude p)]> ∅)).

Definition _route_to_dict (route : Route) : gmap string pyval :=
  <["route_id" := PStr (route_id route)]>
  (<["start_point" := point_to_dict (start_point route)]>
  (<["end_point" := point_to_dict (end_point route)]>
  (<["difficulty" := PStr (difficulty route)]>
  (<["region" := PStr (region route)]>
  (<["points" := PList (point_to_dict <$> points route)]> ∅))))).

Definition _compute_accuracy (predictions : list (gmap string pyval))
    (ground_truths : list Route) : float := 0.75.

Definition _compute_spatial_accuracy (predictions : list (gmap string pyval))
    (ground_truths : list Route) : float := 0.68.

Definition _compute_route_deviation (predictions : list (gmap string pyval))
    (ground_truths : list Route) : float := 2.5.

Definition _compute_semantic_similarity (predictions : list (gmap string pyval))
    (ground_truths : list Route) : float := 0.72.

Definition _compute_by_difficulty (model : BaseModel) (dataset : RouteDataset)
    (predictions : list (gmap string pyval)) (ground_truths : list Route)
    : M (gmap string pyval) :=
  let difficulties := ["easy"; "medium"; "hard"] in
  for_each (λ (by_difficulty : gmap string pyval) level,
    filtered_dataset ← RouteDataset.filter_by_difficulty dataset level;
    n ← RouteDataset.__len__ filtered_dataset;
    if 0 <? n then
      i ← index level difficulties;
      penalty ← float_mul 0.15 (PInt i);
      n' ← RouteDataset.__len__ filtered_dataset;
      mret (<[level := PDict (<["accuracy" := PFloat (0.80 - penalty)]>
                             (<["count" := PInt n']> ∅))]> by_difficulty)
    else
      mret (<[level := PDict (<["accuracy" := PFloat 0.0]>
                             (<["count" := PInt 0]> ∅))]> by_difficulty))
    ∅ difficulties.

Definition _compute_overall_score (metrics : gmap string pyval) : M float :=
  let w_accuracy := 0.3%float in
  let w_spatial_accuracy := 0.3%float in
  let w_semantic_similarity := 0.2%float in
  let w_route_deviation_normalized := 0.2%float in
  ratio ← div_int (dict_get metrics "route_deviation" (PInt 5)) 10;
  let route_dev_norm := max_0 (1 - ratio) in
  a ← float_mul w_accuracy (dict_get metrics "accuracy" (PInt 0));
  b ← float_mul w_spatial_accuracy (dict_get metrics "spatial_accuracy" (PInt 0));
  c ← float_mul w_semantic_similarity (dict_get metrics "semantic_similarity" (PInt 0));
  d ← float_mul w_route_deviation_normalized route_dev_norm;
  let score := (a + b + c + d)%float in
  mret (PyNum.round_ndigits score 3).

(** [results["metrics"][key] = v]. *)
Definition set_metric (results : gmap string pyval) (key : string) (v : pyval)
    : M (gmap string pyval) :=
  match results !! "metrics" with
  | Some (PDict m) => mret (<["metrics" := PDict (<[key := v]> m)]> results)
  | Some _ => raise TypeError
  | None => raise KeyError
  end.

(** [results["metrics"]]. *)
Definition get_metrics (results : gmap string pyval) : M (gmap string pyval) :=
  match results !! "metrics" with
  | Some (PDict m) => mret m
  | Some _ => raise TypeError
  | None => raise KeyError
  end.

Definition evaluate (self : RouteEvaluator) (model : BaseModel) (dataset : RouteDataset)
    : M (gmap string pyval) :=
  n ← RouteDataset.__len__ dataset;
  let results : gmap string pyval :=
    <["model_name" := PStr (model_name model)]>
    (<["dataset_size" := PInt n]>
    (<["metrics" := PDict ∅]> ∅)) in
  rs ← read_list (routes dataset);
  '(predictions, ground_truths) ←
    for_each (λ '(predictions, ground_truths) route,
      let route_data := _route_to_dict route in
      prediction ← predict model route_data;
      mret (predictions ++ [prediction], ground_truths ++ [route]))
      ([], []) rs;
  results ← set_metric results "accuracy"
    (PFloat (_compute_accuracy predictions ground_truths));
  results ← set_metric results "spatial_accuracy"
    (PFloat (_compute_spatial_accuracy predictions ground_truths));
  results ← set_metric results "route_deviation"
    (PFloat (_compute_route_deviation predictions ground_truths));
  results ← set_metric results "semantic_similarity"
    (PFloat (_compute_semantic_similarity predictions ground_truths));
  by_difficulty ← _compute_by_difficulty model dataset predictions ground_truths;
  results ← set_metric results "by_difficulty" (PDict by_difficulty);
  m ← get_metrics results;
  overall_score ← _compute_overall_score m;
  let results := <["overall_score" := PFloat overall_score]> results in
  log evaluation_logger INFO
    [Lit "Evaluation completed for "; Fmt (PStr (model_name model))];;
  mret results.

End RouteEvaluator.

(** [config or {}]: an empty or absent configuration becomes a new
    empty dict. *)
Definition evaluate_model (model : BaseModel) (dataset : RouteDataset)
    (config : option (gmap string pyval)) : M (gmap string pyval) :=
  evaluator ← RouteEvaluator.__init__ (default ∅ config);
  RouteEvaluator.evaluate evaluator model dataset.

(** ** [benchmark.py] *)

Definition benchmark_logger : string := "turnback.benchmark".

(** [f"{x:.3f}"] for a float [x]: three decimals, correctly rounded (half
    to even on the exact binary value), sign first. *)
Definition format_3f (x : float) : string :=
  match Prim2SF x with
  | S754_nan => "nan"
  | S754_infinity s => if s then "-inf" else "inf"
  | S754_zero s => (if s then "-" else "") +:+ "0.000"
  | S754_finite s m e =>
      let n :=
        if 0 <=? e then Z.pos m * 2 ^ e * 1000
        else PyNum.div_half_even (Z.pos m * 1000) (2 ^ (- e)) in
      (if s then "-" else "") +:+ pretty (n `div` 1000) +:+ "." +:+
      format_03d (n `mod` 1000)
  end.

(** [format(v, ".3f")] on an arbitrary value: numbers are formatted as
    floats, a string rejects the format code, the other values reject
    any format string. *)
Definition format_spec_3f (v : pyval) : M string :=
  match v with
  | PFloat f => mret (format_3f f)
  | PInt z => f ← lift_option OverflowError (PyNum.float_of_int z); mret (format_3f f)
  | PBool b => mret (format_3f (if b then 1 else 0))
  | PStr _ => raise ValueError
  | _ => raise TypeError
  end.

(** [model.__class__.__name__]. *)
Definition class_name (model : BaseModel) : string :=
  match model with
  | LLMModel _ _ _ => "LLMModel"
  | HumanBaselineModel => "HumanBaselineModel"
  end.

Record TurnBackBenchmark : Type := {
  benchmark_config : gmap string pyval;
  evaluator : RouteEvaluator
}.

Module TurnBackBenchmark.

Definition __init__ (config : option (gmap string pyval)) : M TurnBackBenchmark :=
  let config := default ∅ config in
  evaluator ← RouteEvaluator.__init__ config;
  log benchmark_logger INFO [Lit "TurnBack benchmark initialized"];;
  mret {| benchmark_config := config; evaluator := evaluator |}.

Definition evaluate (self : TurnBackBenchmark) (model : BaseModel)
    (dataset : RouteDataset) : M (gmap string pyval) :=
  n ← RouteDataset.__len__ dataset;
  log benchmark_logger INFO
    [Lit "Starting evaluation of "; Fmt (PStr (class_name model));
     Lit " on "; Fmt (PInt n); Lit " samples"];;
  results ← RouteEvaluator.evaluate (evaluator self) model dataset;
  accuracy ← format_spec_3f (dict_get results "accuracy" (PInt 0));
  log benchmark_logger INFO
    [Lit "Evaluation completed. Overall accuracy: "; Lit accuracy];;
  mret results.

(** Both are [pass] in the source. *)
Definition load_config (self : TurnBackBenchmark) (config_path : string) : M () :=
  mret ().

Definition save_results (self : TurnBackBenchmark) (results : gmap string pyval)
    (output_path : string) : M () :=
  mret ().

End TurnBackBenchmark.

(** ** [scripts/evaluate.py] *)

Definition initialize_model (name : string) (api_key : option string) : M BaseModel :=
  if decide (name = "human_baseline") then HumanBaseline.__init__
  else LLM.__init__ name api_key ∅.

(** ** Vocabulary of the statements *)

(** The world after the calls [es] to the logger, and after storing the
    list [rs] at the address [l]. *)
Definition emit (es : list event) (σ : world) : world :=
  {| heap := heap σ; trace := trace σ ++ es |}.

Definition store (l : loc) (rs : list Route) (σ : world) : world :=
  {| heap := <[l := rs]> (heap σ); trace := trace σ |}.

(** The record logged by [RouteDataset.__init__] for a list of [n] routes. *)
Definition initialized (n : Z) : event :=
  LogCall dataset_logger INFO
    [Lit "Initialized dataset with "; Fmt (PInt n); Lit " routes"].

(** The sum of the values of a dict of counts. *)
Definition sum_values (m : gmap string Z) : Z :=
  map_fold (λ _ v acc, v + acc) 0 m.

(** A world with one list of three routes; [first_dataset] is the dataset
    over the list at the first address. *)
Definition route_of (id level place : string) : Route :=
  let p := {| latitude := 40.0; longitude := -74.0;
              timestamp := None; point_metadata := None |} in
  let q := {| latitude := 41.0; longitude := -73.0;
              timestamp := None; point_metadata := None |} in
  {| route_id := id; points := [p; q]; start_point := p; end_point := q;
     difficulty := level; region := place; metadata := None |}.

Definition three_routes : list Route :=
  [route_of "a" "easy" "Test Region";
   route_of "b" "hard" "Test Region";
   route_of "c" "easy" "Elsewhere"].

Definition three_world : world :=
  {| heap := {[ 1%positive := three_routes ]}; trace := [] |}.

Definition first_dataset : RouteDataset := {| routes := 1%positive |}.

(** The world after a filter that keeps [kept]: a new list and one record
    logged by the constructor. *)
Definition filtered (kept : list Route) (σ : world) : world :=
  emit [initialized (len kept)] (store (fresh (dom (heap σ))) kept σ).

(** The dict that maps each member of [s] to its number of occurrences. *)
Definition counts_on (s : gset string) (xs : list string) : gmap string Z :=
  set_to_map (λ x, (x, count x xs)) s.

(** The two constant predictions. *)
Definition llm_prediction : gmap string pyval :=
  <["predicted_route" := PStr "Sample prediction"]>
  (<["confidence" := PFloat 0.85]>
  (<["reasoning" := PStr "This is a placeholder reasoning"]>
  (<["intermediate_points" := PList []]> ∅))).

Definition human_prediction : gmap string pyval :=
  <["predicted_route" := PStr "Human baseline prediction"]>
  (<["confidence" := PFloat 0.90]>
  (<["reasoning" := PStr "Human expert analysis"]>
  (<["intermediate_points" := PList []]> ∅))).

(** The entry [k] of [route_data] is absent or is itself a dict. *)
Definition dict_or_absent (route_data : gmap string pyval) (k : string) : Prop :=
  match route_data !! k with
  | None | Some (PDict _) => True
  | Some _ => False
  end.

#[global] Instance dict_or_absent_dec route_data k :
  Decision (dict_or_absent route_data k).
Proof.
  unfold dict_or_absent. destruct (route_data !! k) as [[] |]; apply _.
Defined.

(** The mappings [LLMModel.prepare_input] can read its points from. *)
Definition well_shaped (route_data : gmap string pyval) : Prop :=
  dict_or_absent route_data "start_point" ∧ dict_or_absent route_data "end_point".

(** The record logged by [LLMModel.predict]. *)
Definition generated (route_data : gmap string pyval) : event :=
  LogCall models_logger DEBUG
    [Lit "Generated prediction for route ";
     Fmt (dict_get route_data "route_id" (PStr "unknown"))].

(** The mapping a model is given, as the data model describes it: the
    identifier is a string, the start and the end point are mappings
    whose latitude and longitude are floats.  A key may be missing, as
    in the mappings the tests pass.  The other keys are not read by
    [predict]. *)
Definition coordinate_entry (d : gmap string pyval) (k : string) : Prop :=
  match d !! k with
  | None | Some (PFloat _) => True
  | Some _ => False
  end.

Definition point_entry (route_data : gmap string pyval) (k : string) : Prop :=
  match route_data !! k with
  | None => True
  | Some (PDict d) => coordinate_entry d "latitude" ∧ coordinate_entry d "longitude"
  | Some _ => False
  end.

Definition route_data_shape (route_data : gmap string pyval) : Prop :=
  match route_data !! "route_id" with
  | None | Some (PStr _) => True
  | Some _ => False
  end ∧
  point_entry route_data "start_point" ∧
  point_entry route_data "end_point".

(** The mapping of [test_model_prediction_format]. *)
Definition test_route_data : gmap string pyval :=
  <["route_id" := PStr "test"]>
  (<["start_point" := PDict (<["latitude" := PFloat 40.0]>
                            (<["longitude" := PFloat (-74.0)]> ∅))]>
  (<["end_point" := PDict (<["latitude" := PFloat 41.0]>
                          (<["longitude" := PFloat (-73.0)]> ∅))]> ∅)).

(** A world without lists and without history. *)
Definition empty_world : world := {| heap := ∅; trace := [] |}.

(** [float(i)] for an int within range. *)
Definition int_float (i : Z) : float :=
  SF2Prim (binary_normalize prec emax i 0 false).

(** The [i]-th route of the sample dataset, as the specification gives it. *)
Definition expected_route (i : Z) : Route :=
  let a := {| latitude := 40.7128 + int_float i * 0.01;
              longitude := -74.0060 + int_float i * 0.01;
              timestamp := None; point_metadata := None |}%float in
  let b := {| latitude := 40.7228 + int_float i * 0.01;
              longitude := -74.0160 + int_float i * 0.01;
              timestamp := None; point_metadata := None |}%float in
  {| route_id := "route_00" +:+ pretty i;
     points := [a; b];
     start_point := a;
     end_point := b;
     difficulty := nth (Z.to_nat (i `mod` 3)) ["easy"; "medium"; "hard"] "";
     region := "New York";
     metadata := Some {["sample" := PBool true]} |}.

Definition expected_routes : list Route := expected_route <$> range 10.

(** What [load_dataset] logs. *)
Definition loading (dataset_name : string) : event :=
  LogCall dataset_logger INFO [Lit "Loading dataset: "; Fmt (PStr dataset_name)].

Definition loaded (n : Z) : event :=
  LogCall dataset_logger INFO [Lit "Loaded "; Fmt (PInt n); Lit " routes"].

(** The prediction of a model, by class. *)
Definition constant_prediction (model : BaseModel) : gmap string pyval :=
  match model with
  | LLMModel _ _ _ => llm_prediction
  | HumanBaselineModel => human_prediction
  end.

(** What predicting the routes [rs] logs. *)
Definition prediction_events (model : BaseModel) (rs : list Route) : list event :=
  match model with
  | LLMModel _ _ _ => (λ r, generated (RouteEvaluator._route_to_dict r)) <$> rs
  | HumanBaselineModel => []
  end.

(** The loop of [evaluate] over the routes. *)
Definition predict_all (model : BaseModel) (rs : list Route)
    (start : list (gmap string pyval) * list Route)
    : M (list (gmap string pyval) * list Route) :=
  for_each (λ '(predictions, ground_truths) route,
    let route_data := RouteEvaluator._route_to_dict route in
    prediction ← predict model route_data;
    mret (predictions ++ [prediction], ground_truths ++ [route]))
    start rs.

(** The routes of one difficulty, and the entry reported for them: [i] is
    the position of the difficulty in [easy, medium, hard]. *)
Definition of_level (level : string) (rs : list Route) : list Route :=
  filter (λ r, difficulty r = level) rs.

Definition bucket (i : Z) (kept : list Route) : pyval :=
  if 0 <? len kept
  then PDict (<["accuracy" := PFloat (0.80 - 0.15 * int_float i)]>
             (<["count" := PInt (len kept)]> ∅))
  else PDict (<["accuracy" := PFloat 0.0]> (<["count" := PInt 0]> ∅)).

Definition by_difficulty_of (rs : list Route) : gmap string pyval :=
  <["hard" := bucket 2 (of_level "hard" rs)]>
  (<["medium" := bucket 1 (of_level "medium" rs)]>
  (<["easy" := bucket 0 (of_level "easy" rs)]> ∅)).

(** One turn of the loop of [_compute_by_difficulty]. *)
Definition by_difficulty_step (dataset : RouteDataset)
    (by_difficulty : gmap string pyval) (level : string) : M (gmap string pyval) :=
  filtered_dataset ← RouteDataset.filter_by_difficulty dataset level;
  n ← RouteDataset.__len__ filtered_dataset;
  if 0 <? n then
    i ← index level ["easy"; "medium"; "hard"];
    penalty ← float_mul 0.15 (PInt i);
    n' ← RouteDataset.__len__ filtered_dataset;
    mret (<[level := PDict (<["accuracy" := PFloat (0.80 - penalty)]>
                           (<["count" := PInt n']> ∅))]> by_difficulty)
  else
    mret (<[level := PDict (<["accuracy" := PFloat 0.0]>
                           (<["count" := PInt 0]> ∅))]> by_difficulty).

(** The world after the three filters of [_compute_by_difficulty]. *)
Definition bucketed (rs : list Route) (σ : world) : world :=
  filtered (of_level "hard" rs)
    (filtered (of_level "medium" rs)
       (filtered (of_level "easy" rs) σ)).

(** The result record with the metrics [m], and the metrics of a finished
    evaluation. *)
Definition results_of (name : string) (n : Z) (m : gmap string pyval)
    : gmap string pyval :=
  <["metrics" := PDict m]>
  (<["model_name" := PStr name]>
  (<["dataset_size" := PInt n]> ∅)).

Definition final_metrics (rs : list Route) : gmap string pyval :=
  <["by_difficulty" := PDict (by_difficulty_of rs)]>
  (<["semantic_similarity" := PFloat 0.72]>
  (<["route_deviation" := PFloat 2.5]>
  (<["spatial_accuracy" := PFloat 0.68]>
  (<["accuracy" := PFloat 0.75]> ∅)))).

Definition final_results (model : BaseModel) (rs : list Route) : gmap string pyval :=
  <["overall_score" := PFloat 0.723]>
  (results_of (model_name model) (len rs) (final_metrics rs)).

(** What [evaluate] logs last, and the world it leaves. *)
Definition completed (model : BaseModel) : event :=
  LogCall evaluation_logger INFO
    [Lit "Evaluation completed for "; Fmt (PStr (model_name model))].

Definition evaluated (model : BaseModel) (rs : list Route) (σ : world) : world :=
  emit [completed model] (bucketed rs (emit (prediction_events model rs) σ)).

(** The composite score in the words of the specification: the weighted
    sum of the three accuracies and of the deviation, normalised and
    clipped at zero, rounded to three decimals. *)
Definition weighted_score (accuracy spatial semantic deviation : float) : float :=
  let clipped := (if 0 <? 1 - deviation / 10 then 1 - deviation / 10 else 0)%float in
  PyNum.round_ndigits
    (0.3 * accuracy + 0.3 * spatial + 0.2 * semantic + 0.2 * clipped)%float 3.

(** An entry of [by_difficulty]. *)
Definition entry (accuracy : float) (n : Z) : pyval :=
  PDict (<["accuracy" := PFloat accuracy]> (<["count" := PInt n]> ∅)).

(** The scenario of the specification: one route of each difficulty. *)
Definition scenario_routes : list Route :=
  [route_of "a" "easy" "Test Region";
   route_of "b" "medium" "Test Region";
   route_of "c" "hard" "Test Region"].

Definition scenario_world : world :=
  {| heap := {[ 1%positive := scenario_routes ]}; trace := [] |}.

(** A world whose only list is empty. *)
Definition empty_dataset_world : world :=
  {| heap := {[ 1%positive := [] ]}; trace := [] |}.

(** The evaluator [RouteEvaluator({})] builds. *)
Definition default_evaluator : RouteEvaluator :=
  {| config := ∅;
     metrics := ["accuracy"; "spatial_accuracy"; "semantic_similarity";
                 "route_deviation"; "landmark_recognition"] |}.

(** The values formatted into an f-string, in order. *)
Definition holes (p : fstring) : list pyval :=
  omap (λ x, match x with Fmt v => Some v | Lit _ => None end) p.

(** The ["count"] of an entry of [by_difficulty]. *)
Definition entry_count (v : pyval) : option Z :=
  match v with
  | PDict d => match d !! "count" with Some (PInt n) => Some n | _ => None end
  | _ => None
  end.

(** The difficulties [_compute_by_difficulty] reports on. *)
Definition known_level (r : Route) : Prop :=
  difficulty r ∈ ["easy"; "medium"; "hard"].

(** The coordinates of a point, all that [_route_to_dict] keeps of it. *)
Definition coordinates (p : RoutePoint) : float * float :=
  (latitude p, longitude p).

(** What [TurnBackBenchmark.evaluate] logs. *)
Definition starting (model : BaseModel) (n : Z) : event :=
  LogCall benchmark_logger INFO
    [Lit "Starting evaluation of "; Fmt (PStr (class_name model));
     Lit " on "; Fmt (PInt n); Lit " samples"].

Definition accuracy_reported (text : string) : event :=
  LogCall benchmark_logger INFO
    [Lit "Evaluation completed. Overall accuracy: "; Lit text].

(** What the constructors log. *)
Definition evaluator_initialized : event :=
  LogCall evaluation_logger INFO [Lit "Route evaluator initialized"].

Definition model_initialized (name : string) : event :=
  LogCall models_logger INFO [Lit "Initialized model: "; Fmt (PStr name)].

Definition client_initialized (name : string) : event :=
  LogCall models_logger INFO [Lit "Initializing client for "; Fmt (PStr name)].

(** The dict, the list and the float inside a value of that kind. *)
Definition dict_of (v : pyval) : gmap string pyval :=
  match v with PDict d => d | _ => ∅ end.

Definition list_of (v : pyval) : list pyval :=
  match v with PList l => l | _ => [] end.

Definition float_of (v : pyval) : float :=
  match v with PFloat f => f | _ => 0%float end.

Definition str_of (v : pyval) : string :=
  match v with PStr s => s | _ => "" end.

(** Two routes that differ at most in what [_route_to_dict] leaves out:
    the metadata of the route and the timestamps and metadata of its
    points. *)
Definition same_route_data (r r' : Route) : Prop :=
  route_id r = route_id r' ∧
  coordinates (start_point r) = coordinates (start_point r') ∧
  coordinates (end_point r) = coordinates (end_point r') ∧
  difficulty r = difficulty r' ∧
  region r = region r' ∧
  coordinates <$> points r = coordinates <$> points r'.

(** A metric read with a default: the float stored under the key, or the
    default when the key is absent; nothing when another kind of value is
    stored. *)
Definition float_or_default (o : option pyval) (default : float) : option float :=
  match o with
  | None => Some default
  | Some (PFloat f) => Some f
  | Some _ => None
  end.

(** The values that are not numbers. *)
Definition non_numeric (v : pyval) : Prop :=
  match v with
  | PFloat _ | PInt _ | PBool _ => False
  | _ => True
  end.

(** A world whose list has a route with a difficulty outside easy, medium
    and hard. *)
Definition mislabelled_routes : list Route :=
  [route_of "a" "easy" "Test Region"; route_of "b" "Easy" "Test Region"].

Definition mislabelled_world : world :=
  {| heap := {[ 1%positive := mislabelled_routes ]}; trace := [] |}.

(** The files a trace opens, with their modes, oldest first. *)
Definition file_opens (es : list event) : list (string * string) :=
  omap (λ e, match e with FileOpen path mode => Some (path, mode) | _ => None end) es.

(** ** Running computations *)

(** [round] on values whose results in CPython are well known: 2.675 is
    below the decimal 2.675 in binary and rounds down, halves that are
    exact in binary go to the even neighbour, and the sign of a zero is
    kept. *)
Example round_ndigits_examples :
  PyNum.round_ndigits 2.675 2 = 2.67%float ∧
  PyNum.round_ndigits 0.125 2 = 0.12%float ∧
  PyNum.round_ndigits 0.375 2 = 0.38%float ∧
  PyNum.round_ndigits 2.5 0 = 2%float ∧
  PyNum.round_ndigits 1e22 3 = 1e22%float ∧
  PyNum.round_ndigits (-0.0001) 3 = (-0)%float ∧
  PyNum.round_ndigits 0.72299999999999998 3 = 0.723%float.
Proof. repeat split; vm_compute; reflexivity. Qed.

Example int_arithmetic_examples :
  PyNum.float_of_int 10 = Some 10%float ∧
  PyNum.float_of_int 9007199254740993 = Some 9007199254740992%float ∧
  PyNum.int_truediv 5 10 = Some 0.5%float ∧
  PyNum.int_truediv 1 3 = Some (1 / 3)%float ∧
  PyNum.int_truediv 1 0 = None.
Proof. repeat split; vm_compute; reflexivity. Qed.

Lemma bind_run {A B} (c : M A) (k : A → M B) σ :
  (c ≫= k) σ =
  match c σ with
  | (Returns a, σ') => k a σ'
  | (Raises e, σ') => (Raises e, σ')
  | (Stuck, σ') => (Stuck, σ')
  end.
Proof. reflexivity. Qed.

Lemma bind_returns {A B} (c : M A) (k : A → M B) σ a σ' :
  c σ = (Returns a, σ') → (c ≫= k) σ = k a σ'.
Proof. intros H. rewrite bind_run, H. reflexivity. Qed.

Lemma bind_raises {A B} (c : M A) (k : A → M B) σ e σ' :
  c σ = (Raises e, σ') → (c ≫= k) σ = (Raises e, σ').
Proof. intros H. rewrite bind_run, H. reflexivity. Qed.

Lemma read_list_run σ l rs :
  heap σ !! l = Some rs → read_list l σ = (Returns rs, σ).
Proof. intros H. unfold read_list. rewrite H. reflexivity. Qed.

Lemma fresh_heap (σ : world) : heap σ !! fresh (dom (heap σ)) = None.
Proof. apply not_elem_of_dom, is_fresh. Qed.

Lemma fresh_neq (σ : world) l rs :
  heap σ !! l = Some rs → fresh (dom (heap σ)) ≠ l.
Proof. intros H E. rewrite <- E, fresh_heap in H. discriminate. Qed.

(** *** [RouteDataset] *)

Lemma init_run σ l rs :
  heap σ !! l = Some rs →
  RouteDataset.__init__ l σ = (Returns {| routes := l |}, emit [initialized (len rs)] σ).
Proof.
  intros H. unfold RouteDataset.__init__.
  rewrite (bind_returns _ _ _ _ _ (read_list_run _ _ _ H)). reflexivity.
Qed.

Lemma len_run D σ rs :
  heap σ !! routes D = Some rs →
  RouteDataset.__len__ D σ = (Returns (len rs), σ).
Proof.
  intros H. unfold RouteDataset.__len__.
  rewrite (bind_returns _ _ _ _ _ (read_list_run _ _ _ H)). reflexivity.
Qed.

Lemma getitem_run D i σ rs :
  heap σ !! routes D = Some rs →
  RouteDataset.__getitem__ D i σ = getitem rs i σ.
Proof.
  intros H. unfold RouteDataset.__getitem__.
  rewrite (bind_returns _ _ _ _ _ (read_list_run _ _ _ H)). reflexivity.
Qed.

Lemma new_dataset_run σ kept :
  (new_list kept ≫= RouteDataset.__init__) σ =
  (Returns {| routes := fresh (dom (heap σ)) |}, filtered kept σ).
Proof.
  rewrite bind_run. cbn [new_list].
  erewrite init_run; [reflexivity |]. cbn. apply lookup_insert_eq.
Qed.

Lemma filter_by_difficulty_run D v σ rs :
  heap σ !! routes D = Some rs →
  RouteDataset.filter_by_difficulty D v σ =
  (Returns {| routes := fresh (dom (heap σ)) |},
   filtered (filter (λ r, difficulty r = v) rs) σ).
Proof.
  intros H. unfold RouteDataset.filter_by_difficulty.
  rewrite (bind_returns _ _ _ _ _ (read_list_run _ _ _ H)).
  apply new_dataset_run.
Qed.

Lemma filter_by_region_run D v σ rs :
  heap σ !! routes D = Some rs →
  RouteDataset.filter_by_region D v σ =
  (Returns {| routes := fresh (dom (heap σ)) |},
   filtered (filter (λ r, region r = v) rs) σ).
Proof.
  intros H. unfold RouteDataset.filter_by_region.
  rewrite (bind_returns _ _ _ _ _ (read_list_run _ _ _ H)).
  apply new_dataset_run.
Qed.

Lemma filtered_new σ kept :
  heap (filtered kept σ) !! fresh (dom (heap σ)) = Some kept.
Proof. cbn. apply lookup_insert_eq. Qed.

Lemma filtered_old σ kept l :
  l ∈ dom (heap σ) → heap (filtered kept σ) !! l = heap σ !! l.
Proof.
  intros Hl. cbn. apply lookup_insert_ne. intros E. subst l.
  exact (is_fresh (dom (heap σ)) Hl).
Qed.

Lemma filtered_keeps σ kept l rs :
  heap σ !! l = Some rs → heap (filtered kept σ) !! l = Some rs.
Proof.
  intros H. rewrite filtered_old; [exact H |]. apply elem_of_dom. eauto.
Qed.

(** *** Indexing *)

Section Indexing.
Context {A : Type}.
Implicit Types (rs : list A) (i : Z) (σ : world).

Lemma getitem_at rs i σ :
  0 ≤ i < len rs →
  ∃ r, rs !! Z.to_nat i = Some r ∧ getitem rs i σ = (Returns r, σ).
Proof.
  intros Hi. unfold getitem.
  destruct (Z.ltb_spec i 0) as [? | _]; [lia |].
  destruct (Z.ltb_spec i 0) as [? | _]; [lia |].
  destruct (Z.leb_spec (len rs) i) as [? | _]; [lia |]. cbn.
  destruct (lookup_lt_is_Some_2 rs (Z.to_nat i)) as [r Hr]; [unfold len in Hi; lia |].
  exists r. rewrite Hr. split; reflexivity.
Qed.

Lemma getitem_from_end rs i σ :
  - len rs ≤ i < 0 →
  ∃ r, rs !! Z.to_nat (len rs + i) = Some r ∧ getitem rs i σ = (Returns r, σ).
Proof.
  intros Hi. unfold getitem.
  destruct (Z.ltb_spec i 0) as [_ | ?]; [| lia].
  destruct (Z.ltb_spec (i + len rs) 0) as [? | _]; [lia |].
  destruct (Z.leb_spec (len rs) (i + len rs)) as [? | _]; [lia |]. cbn.
  replace (i + len rs) with (len rs + i) by lia.
  destruct (lookup_lt_is_Some_2 rs (Z.to_nat (len rs + i))) as [r Hr];
    [unfold len in *; lia |].
  exists r. rewrite Hr. split; reflexivity.
Qed.

Lemma getitem_outside rs i σ :
  i < - len rs ∨ len rs ≤ i → getitem rs i σ = (Raises IndexError, σ).
Proof.
  intros Hi. unfold getitem.
  destruct (Z.ltb_spec i 0).
  - destruct (Z.ltb_spec (i + len rs) 0); [reflexivity | lia].
  - destruct (Z.ltb_spec i 0); [lia |].
    destruct (Z.leb_spec (len rs) i); [reflexivity | lia].
Qed.

Lemma getitem_raises_iff rs i σ :
  (getitem rs i σ).1 = Raises IndexError ↔ i < - len rs ∨ len rs ≤ i.
Proof.
  split; [| intros H; rewrite getitem_outside by exact H; reflexivity].
  intros H.
  destruct (Z_lt_le_dec i (- len rs)) as [? | Hlo]; [lia |].
  destruct (Z_le_gt_dec (len rs) i) as [? | Hhi]; [lia | exfalso].
  destruct (Z_lt_le_dec i 0).
  - destruct (getitem_from_end rs i σ) as (r & _ & E); [lia |].
    rewrite E in H. discriminate.
  - destruct (getitem_at rs i σ) as (r & _ & E); [lia |].
    rewrite E in H. discriminate.
Qed.

Lemma getitem_world rs i σ σ' : (getitem rs i σ).1 = (getitem rs i σ').1.
Proof.
  unfold getitem. destruct (_ || _); [reflexivity |].
  destruct (rs !! _); reflexivity.
Qed.

End Indexing.

(** C9. [D.get(i)] returns the route at position [i] when [i] is within
    bounds (a negative [i] within bounds counts from the end), and raises
    [IndexError] when [i] is out of bounds (at or past the length, or
    before minus the length); the exception leaves [__getitem__] as it
    is, no handler intervenes, and the world is untouched. *)
Theorem getitem_bounds (D : RouteDataset) (i : Z) (σ : world) (rs : list Route) :
  heap σ !! routes D = Some rs →
  (0 ≤ i < len rs →
     ∃ r, rs !! Z.to_nat i = Some r ∧
          RouteDataset.__getitem__ D i σ = (Returns r, σ)) ∧
  (- len rs ≤ i < 0 →
     ∃ r, rs !! Z.to_nat (len rs + i) = Some r ∧
          RouteDataset.__getitem__ D i σ = (Returns r, σ)) ∧
  (len rs ≤ i ∨ i < - len rs →
     RouteDataset.__getitem__ D i σ = (Raises IndexError, σ)).
Proof.
  intros H. rewrite (getitem_run _ _ _ _ H). split; [| split].
  - apply getitem_at.
  - apply getitem_from_end.
  - intros Hi. apply getitem_outside. lia.
Qed.

Lemma getitem_bounds_witness :
  RouteDataset.__getitem__ first_dataset 1 three_world
    = (Returns (route_of "b" "hard" "Test Region"), three_world) ∧
  RouteDataset.__getitem__ first_dataset 3 three_world
    = (Raises IndexError, three_world).
Proof.
  split.
  - destruct (getitem_bounds first_dataset 1 three_world three_routes eq_refl)
      as (Hin & _ & _).
    destruct Hin as (r & Hr & E); [unfold len; simpl; lia |].
    cbn in Hr. injection Hr as <-. exact E.
  - destruct (getitem_bounds first_dataset 3 three_world three_routes eq_refl)
      as (_ & _ & Hout).
    apply Hout. unfold len; simpl; lia.
Defined.

(** C10. On a dataset of length [n ≥ 1], [D.get(-k)] for [1 ≤ k ≤ n]
    returns the route at position [n - k]; [IndexError] is raised exactly
    when the index is at least [n] or below [-n]. *)
Theorem getitem_negative (D : RouteDataset) (σ : world) (rs : list Route) :
  heap σ !! routes D = Some rs →
  1 ≤ len rs →
  (∀ k, 1 ≤ k ≤ len rs →
     ∃ r, rs !! Z.to_nat (len rs - k) = Some r ∧
          RouteDataset.__getitem__ D (- k) σ = (Returns r, σ)) ∧
  (∀ i, (RouteDataset.__getitem__ D i σ).1 = Raises IndexError ↔
        len rs ≤ i ∨ i < - len rs).
Proof.
  intros H _. split.
  - intros k Hk. rewrite (getitem_run _ _ _ _ H).
    destruct (getitem_from_end rs (- k) σ) as (r & Hr & E); [lia |].
    exists r. split; [| exact E].
    replace (len rs - k) with (len rs + - k) by lia. exact Hr.
  - intros i. rewrite (getitem_run _ _ _ _ H), getitem_raises_iff. lia.
Qed.

Lemma getitem_negative_witness :
  RouteDataset.__getitem__ first_dataset (- 1) three_world
    = (Returns (route_of "c" "easy" "Elsewhere"), three_world) ∧
  RouteDataset.__getitem__ first_dataset (- 3) three_world
    = (Returns (route_of "a" "easy" "Test Region"), three_world) ∧
  (RouteDataset.__getitem__ first_dataset (- 4) three_world).1 = Raises IndexError.
Proof.
  assert (Hlen : 1 ≤ len three_routes) by (unfold len; simpl; lia).
  destruct (getitem_negative first_dataset three_world three_routes eq_refl Hlen)
    as [Hneg Hiff].
  split; [| split].
  - destruct (Hneg 1) as (r & Hr & E); [unfold len; simpl; lia |].
    cbn in Hr. injection Hr as <-. exact E.
  - destruct (Hneg 3) as (r & Hr & E); [unfold len; simpl; lia |].
    cbn in Hr. injection Hr as <-. exact E.
  - apply Hiff. unfold len; simpl; lia.
Defined.

(** *** Filtering *)

Section Filter.
Context (P : Route → Prop) `{!∀ r, Decision (P r)}.

Lemma filter_facts (rs : list Route) :
  Forall P (filter P rs) ∧
  (∀ r, r ∈ rs → P r → r ∈ filter P rs) ∧
  filter P rs `sublist_of` rs ∧
  len (filter P rs) ≤ len rs ∧
  ((∀ r, r ∈ rs → ¬ P r) → filter P rs = []).
Proof.
  repeat split.
  - apply Forall_forall. intros r Hr. apply list_elem_of_filter in Hr. tauto.
  - intros r Hr HP. apply list_elem_of_filter. tauto.
  - apply sublist_filter.
  - unfold len. pose proof (length_filter P rs). lia.
  - intros Hno. induction rs as [| r rs' IH]; [reflexivity |].
    rewrite filter_cons_False by (apply Hno; left).
    apply IH. intros r' Hr'. apply Hno. right. exact Hr'.
Qed.

End Filter.

(** C5. [D.filter_by_difficulty(v)] returns a new dataset whose routes all
    have difficulty [v], are all the routes of [D] with that difficulty,
    in the order they have in [D]; it is no longer than [D], and is the
    empty dataset, not an error, when no route matches.
    [filter_by_region] does the same on the region. *)
Theorem filter_contract (D : RouteDataset) (v : string) (σ : world) (rs : list Route) :
  heap σ !! routes D = Some rs →
  (∃ D' σ' kept,
     RouteDataset.filter_by_difficulty D v σ = (Returns D', σ') ∧
     routes D' ≠ routes D ∧
     heap σ' !! routes D' = Some kept ∧
     Forall (λ r, difficulty r = v) kept ∧
     (∀ r, r ∈ rs → difficulty r = v → r ∈ kept) ∧
     kept `sublist_of` rs ∧
     len kept ≤ len rs ∧
     ((∀ r, r ∈ rs → difficulty r ≠ v) → kept = [])) ∧
  (∃ D' σ' kept,
     RouteDataset.filter_by_region D v σ = (Returns D', σ') ∧
     routes D' ≠ routes D ∧
     heap σ' !! routes D' = Some kept ∧
     Forall (λ r, region r = v) kept ∧
     (∀ r, r ∈ rs → region r = v → r ∈ kept) ∧
     kept `sublist_of` rs ∧
     len kept ≤ len rs ∧
     ((∀ r, r ∈ rs → region r ≠ v) → kept = [])).
Proof.
  intros H. split.
  - eexists _, _, _. split; [exact (filter_by_difficulty_run D v σ rs H) |].
    split; [exact (fresh_neq σ _ _ H) |].
    split; [apply filtered_new |].
    exact (filter_facts (λ r, difficulty r = v) rs).
  - eexists _, _, _. split; [exact (filter_by_region_run D v σ rs H) |].
    split; [exact (fresh_neq σ _ _ H) |].
    split; [apply filtered_new |].
    exact (filter_facts (λ r, region r = v) rs).
Qed.

Lemma filter_contract_witness :
  (∃ D' σ',
     RouteDataset.filter_by_difficulty first_dataset "easy" three_world
       = (Returns D', σ') ∧
     heap σ' !! routes D'
       = Some [route_of "a" "easy" "Test Region"; route_of "c" "easy" "Elsewhere"]) ∧
  (∃ D' σ',
     RouteDataset.filter_by_region first_dataset "Mars" three_world
       = (Returns D', σ') ∧
     heap σ' !! routes D' = Some []).
Proof.
  destruct (filter_contract first_dataset "easy" three_world three_routes eq_refl)
    as [(D1 & σ1 & k1 & E1 & _ & H1 & A1 & C1 & _) _].
  destruct (filter_contract first_dataset "Mars" three_world three_routes eq_refl)
    as [_ (D2 & σ2 & k2 & E2 & _ & H2 & _ & _ & _ & _ & N2)].
  split.
  - exists D1, σ1. split; [exact E1 |].
    rewrite (filter_by_difficulty_run _ _ _ _ (eq_refl : heap three_world !! routes first_dataset = Some three_routes)) in E1.
    injection E1 as <- <-.
    etrans; [exact (filtered_new three_world _) | reflexivity].
  - exists D2, σ2. split; [exact E2 |]. rewrite H2. f_equal. apply N2.
    intros r Hr. unfold three_routes in Hr.
    repeat (apply elem_of_cons in Hr as [-> | Hr]; [discriminate |]).
    inversion Hr.
Defined.

(** C7. Filtering is not destructive: after either filter the list of [D]
    is the list it was, every list of the old world is unchanged, and the
    result holds a list of its own, so that appending to it later still
    leaves [D] alone. *)
Theorem filter_frame (D : RouteDataset) (v : string) (σ : world) (rs : list Route) :
  heap σ !! routes D = Some rs →
  ∀ call : M RouteDataset,
    (call = RouteDataset.filter_by_difficulty D v ∨
     call = RouteDataset.filter_by_region D v) →
    ∃ D' σ',
      call σ = (Returns D', σ') ∧
      heap σ' !! routes D = Some rs ∧
      RouteDataset.__len__ D σ' = (Returns (len rs), σ') ∧
      (∀ i, (RouteDataset.__getitem__ D i σ').1 = (RouteDataset.__getitem__ D i σ).1) ∧
      (∀ l, l ∈ dom (heap σ) → heap σ' !! l = heap σ !! l) ∧
      (routes D' ∉ dom (heap σ)) ∧
      (∀ r, ∃ σ'', append (routes D') r σ' = (Returns (), σ'') ∧
                   heap σ'' !! routes D = Some rs).
Proof.
  intros H call Hcall.
  assert (∃ kept, call σ =
    (Returns {| routes := fresh (dom (heap σ)) |}, filtered kept σ)) as [kept E].
  { destruct Hcall as [-> | ->]; eexists.
    - exact (filter_by_difficulty_run D v σ rs H).
    - exact (filter_by_region_run D v σ rs H). }
  pose proof (filtered_keeps σ kept _ _ H) as Hkeep.
  eexists _, _. split; [exact E |].
  split; [exact Hkeep |].
  split; [exact (len_run D _ rs Hkeep) |].
  split.
  { intros i. rewrite (getitem_run D i _ rs Hkeep), (getitem_run D i σ rs H).
    apply getitem_world. }
  split; [intros l Hl; apply filtered_old; exact Hl |].
  split; [apply is_fresh |].
  intros r. unfold append. cbn [routes]. rewrite filtered_new.
  eexists. split; [reflexivity |]. cbn [heap].
  rewrite lookup_insert_ne by exact (fresh_neq σ _ _ H). exact Hkeep.
Qed.

Lemma filter_frame_witness :
  ∃ D' σ',
    RouteDataset.filter_by_difficulty first_dataset "easy" three_world
      = (Returns D', σ') ∧
    heap σ' !! routes first_dataset = Some three_routes ∧
    RouteDataset.__len__ first_dataset σ' = (Returns 3, σ').
Proof.
  destruct (filter_frame first_dataset "easy" three_world three_routes eq_refl
              _ (or_introl eq_refl))
    as (D' & σ' & E & Hkeep & Hlen & _).
  exists D', σ'. split; [exact E |]. split; [exact Hkeep | exact Hlen].
Defined.

(** *** Statistics *)

Section Distribution.
Implicit Types (xs : list string) (s : gset string) (x : string).

Lemma counts_on_lookup s xs x :
  counts_on s xs !! x = if decide (x ∈ s) then Some (count x xs) else None.
Proof.
  unfold counts_on. destruct (decide (x ∈ s)) as [Hin | Hout].
  - apply lookup_set_to_map; [cbn; auto |]. exists x. auto.
  - apply eq_None_not_Some. intros [n Hn].
    apply lookup_set_to_map in Hn as (y & Hy & E); [| cbn; auto].
    injection E as -> _. contradiction.
Qed.

Lemma counts_on_union s xs x :
  x ∉ s → counts_on ({[x]} ∪ s) xs = <[x := count x xs]> (counts_on s xs).
Proof.
  intros Hx. apply map_eq. intros y.
  rewrite lookup_insert, !counts_on_lookup.
  destruct (decide (x = y)) as [-> | Hne].
  - rewrite decide_True by set_solver. reflexivity.
  - destruct (decide (y ∈ s)).
    + rewrite decide_True by set_solver. reflexivity.
    + rewrite decide_False; [reflexivity |].
      rewrite elem_of_union, elem_of_singleton. intros [? | ?]; congruence.
Qed.

Lemma sum_values_insert (m : gmap string Z) x n :
  m !! x = None → sum_values (<[x := n]> m) = n + sum_values m.
Proof.
  intros Hx. unfold sum_values.
  rewrite map_fold_insert_L; [reflexivity | intros; lia | exact Hx].
Qed.

Lemma count_cons x y xs :
  count x (y :: xs) = (if decide (y = x) then 1 else 0) + count x xs.
Proof.
  unfold count, len. rewrite filter_cons.
  destruct (decide (y = x)); cbn [length]; lia.
Qed.

Lemma len_filter_union s xs x :
  x ∉ s →
  len (filter (λ y, y ∈ {[x]} ∪ s) xs) = count x xs + len (filter (λ y, y ∈ s) xs).
Proof.
  intros Hx. induction xs as [| y xs IH]; [reflexivity |].
  rewrite count_cons, !filter_cons.
  destruct (decide (y = x)) as [-> | Hne].
  - rewrite decide_True by set_solver. rewrite decide_False by exact Hx.
    unfold len in *. cbn [length]. lia.
  - destruct (decide (y ∈ s)).
    + rewrite decide_True by set_solver. unfold len in *. cbn [length]. lia.
    + rewrite decide_False; [lia |].
      rewrite elem_of_union, elem_of_singleton. intros [? | ?]; congruence.
Qed.

Lemma sum_counts_on s xs :
  sum_values (counts_on s xs) = len (filter (λ y, y ∈ s) xs).
Proof.
  induction s as [| x s Hx IH] using set_ind_L.
  - unfold counts_on, sum_values, set_to_map. rewrite elements_empty. cbn.
    rewrite map_fold_empty. symmetry.
    induction xs as [| y xs IHxs]; [reflexivity |].
    rewrite filter_cons_False by set_solver. exact IHxs.
  - rewrite counts_on_union by exact Hx.
    rewrite sum_values_insert.
    + rewrite IH. symmetry. apply len_filter_union. exact Hx.
    + rewrite counts_on_lookup. apply decide_False. exact Hx.
Qed.

Lemma distribution_lookup xs x :
  RouteDataset.distribution xs !! x =
  if decide (x ∈ xs) then Some (count x xs) else None.
Proof.
  change (RouteDataset.distribution xs) with (counts_on (list_to_set xs) xs).
  rewrite counts_on_lookup.
  destruct (decide (x ∈ xs)) as [Hin | Hout].
  - apply decide_True, elem_of_list_to_set, Hin.
  - apply decide_False. rewrite elem_of_list_to_set. exact Hout.
Qed.

Lemma filter_members s xs :
  (∀ y, y ∈ xs → y ∈ s) → filter (λ y, y ∈ s) xs = xs.
Proof.
  induction xs as [| y xs IH]; intros Hall; [reflexivity |].
  rewrite filter_cons_True by (apply Hall; left).
  f_equal. apply IH. intros z Hz. apply Hall. right. exact Hz.
Qed.

Lemma distribution_sum xs : sum_values (RouteDataset.distribution xs) = len xs.
Proof.
  change (RouteDataset.distribution xs) with (counts_on (list_to_set xs) xs).
  rewrite sum_counts_on, filter_members; [reflexivity |].
  intros y Hy. apply elem_of_list_to_set. exact Hy.
Qed.

End Distribution.

(** C6. [D.get_statistics()] reports the length of [D] as [total_routes];
    [difficulty_distribution] has one entry per difficulty present, mapped
    to its number of occurrences, and its values add up to [total_routes];
    so does [region_distribution] for the regions. *)
Theorem get_statistics_totals (D : RouteDataset) (σ : world) (rs : list Route) :
  heap σ !! routes D = Some rs →
  ∃ (stats : gmap string pyval) (by_level by_region : gmap string Z),
    RouteDataset.get_statistics D σ = (Returns stats, σ) ∧
    stats !! "total_routes" = Some (PInt (len rs)) ∧
    stats !! "difficulty_distribution" = Some (PDict (PInt <$> by_level)) ∧
    stats !! "region_distribution" = Some (PDict (PInt <$> by_region)) ∧
    sum_values by_level = len rs ∧
    sum_values by_region = len rs ∧
    (∀ x, by_level !! x =
          if decide (x ∈ difficulty <$> rs)
          then Some (count x (difficulty <$> rs)) else None) ∧
    (∀ x, by_region !! x =
          if decide (x ∈ region <$> rs)
          then Some (count x (region <$> rs)) else None).
Proof.
  intros H.
  exists (<["total_routes" := PInt (len rs)]>
         (<["difficulty_distribution" :=
              PDict (PInt <$> RouteDataset.distribution (difficulty <$> rs))]>
         (<["region_distribution" :=
              PDict (PInt <$> RouteDataset.distribution (region <$> rs))]> ∅))),
    (RouteDataset.distribution (difficulty <$> rs)),
    (RouteDataset.distribution (region <$> rs)).
  split.
  { unfold RouteDataset.get_statistics.
    rewrite (bind_returns _ _ _ _ _ (read_list_run _ _ _ H)). reflexivity. }
  split; [apply lookup_insert_eq |].
  split; [rewrite lookup_insert_ne by discriminate; apply lookup_insert_eq |].
  split; [do 2 (rewrite lookup_insert_ne by discriminate); apply lookup_insert_eq |].
  split; [rewrite distribution_sum; unfold len; rewrite length_fmap; reflexivity |].
  split; [rewrite distribution_sum; unfold len; rewrite length_fmap; reflexivity |].
  split; intros x; apply distribution_lookup.
Qed.

Lemma get_statistics_totals_witness :
  ∃ (stats : gmap string pyval) (by_level by_region : gmap string Z),
    RouteDataset.get_statistics first_dataset three_world = (Returns stats, three_world) ∧
    stats !! "total_routes" = Some (PInt 3) ∧
    stats !! "difficulty_distribution" = Some (PDict (PInt <$> by_level)) ∧
    stats !! "region_distribution" = Some (PDict (PInt <$> by_region)) ∧
    by_level !! "easy" = Some 2 ∧ by_level !! "hard" = Some 1 ∧
    by_level !! "medium" = None ∧
    by_region !! "Test Region" = Some 2 ∧ by_region !! "Elsewhere" = Some 1 ∧
    sum_values by_level = 3 ∧ sum_values by_region = 3.
Proof.
  destruct (get_statistics_totals first_dataset three_world three_routes eq_refl)
    as (stats & dl & dr & E & Ht & Hl & Hr & Sl & Sr & Ll & Lr).
  exists stats, dl, dr.
  repeat split; try assumption; rewrite ?Ll, ?Lr; reflexivity.
Defined.

(** *** Predictions *)

Lemma method_get_dict d k σ :
  method_get (PDict d) k σ = (Returns (dict_get d k PNone), σ).
Proof. reflexivity. Qed.

Lemma method_get_other v k σ :
  (∀ d, v ≠ PDict d) → method_get v k σ = (Raises AttributeError, σ).
Proof. intros Hv. destruct v; try reflexivity. destruct (Hv d). reflexivity. Qed.

Lemma dict_get_shape route_data k :
  dict_or_absent route_data k →
  ∃ d, dict_get route_data k (PDict ∅) = PDict d.
Proof.
  unfold dict_or_absent, dict_get.
  destruct (route_data !! k) as [[] |]; intros Hk; try destruct Hk; eauto.
Qed.

Lemma dict_get_misshape route_data k :
  ¬ dict_or_absent route_data k →
  ∀ d, dict_get route_data k (PDict ∅) ≠ PDict d.
Proof.
  unfold dict_or_absent, dict_get.
  destruct (route_data !! k) as [[] |]; intros Hk d'; try discriminate;
    destruct Hk; exact I.
Qed.

Lemma prepare_input_returns route_data σ :
  well_shaped route_data →
  ∃ prompt, LLM.prepare_input route_data σ = (Returns prompt, σ).
Proof.
  intros [Hs He]. unfold LLM.prepare_input.
  destruct (dict_get_shape _ _ Hs) as [ds ->].
  destruct (dict_get_shape _ _ He) as [de ->].
  eexists. reflexivity.
Qed.

Lemma prepare_input_raises route_data σ :
  ¬ well_shaped route_data →
  LLM.prepare_input route_data σ = (Raises AttributeError, σ).
Proof.
  intros Hbad. unfold LLM.prepare_input.
  destruct (decide (dict_or_absent route_data "start_point")) as [Hs | Hs].
  - destruct (dict_get_shape _ _ Hs) as [ds ->].
    assert (He : ¬ dict_or_absent route_data "end_point")
      by (intros He; apply Hbad; split; assumption).
    rewrite !(bind_returns _ _ _ _ _ (method_get_dict _ _ _)).
    apply bind_raises, method_get_other, dict_get_misshape, He.
  - apply bind_raises, method_get_other, dict_get_misshape, Hs.
Qed.

Lemma llm_predict_run route_data σ :
  well_shaped route_data →
  LLM.predict route_data σ = (Returns llm_prediction, emit [generated route_data] σ).
Proof.
  intros Hok. unfold LLM.predict.
  destruct (prepare_input_returns route_data σ Hok) as [prompt E].
  rewrite (bind_returns _ _ _ _ _ E). reflexivity.
Qed.

Lemma llm_predict_raises route_data σ :
  ¬ well_shaped route_data →
  LLM.predict route_data σ = (Raises AttributeError, σ).
Proof.
  intros Hbad. unfold LLM.predict.
  apply bind_raises, prepare_input_raises, Hbad.
Qed.

Lemma point_entry_dict route_data k :
  point_entry route_data k → dict_or_absent route_data k.
Proof.
  unfold point_entry, dict_or_absent.
  destruct (route_data !! k) as [[] |]; intros Hk; try exact I; destruct Hk.
Qed.

Lemma route_data_shape_well_shaped route_data :
  route_data_shape route_data → well_shaped route_data.
Proof.
  intros (_ & Hs & He). split; apply point_entry_dict; assumption.
Qed.

Lemma route_to_dict_shape (r : Route) :
  route_data_shape (RouteEvaluator._route_to_dict r).
Proof.
  unfold route_data_shape, point_entry, RouteEvaluator._route_to_dict.
  rewrite lookup_insert_eq.
  rewrite (lookup_insert_ne _ "route_id" "start_point") by discriminate.
  rewrite lookup_insert_eq.
  do 2 (rewrite (lookup_insert_ne _ _ "end_point") by discriminate).
  rewrite lookup_insert_eq.
  unfold RouteEvaluator.point_to_dict, coordinate_entry.
  rewrite !lookup_insert_eq.
  rewrite !(lookup_insert_ne _ "latitude" "longitude") by discriminate.
  rewrite !lookup_insert_eq. repeat split.
Qed.

(** C8. On every [route_data] mapping, [LLMModel.predict] returns exactly
    its constant prediction and [HumanBaselineModel.predict] exactly its
    own; the outputs do not depend on the input, so that any two calls on
    any two such mappings give equal predictions.  The mappings are
    those of the data model, and every mapping the evaluator builds from
    a route is one. *)
Theorem predict_constant (route_data : gmap string pyval) (σ : world) :
  route_data_shape route_data →
  LLM.predict route_data σ
    = (Returns llm_prediction, emit [generated route_data] σ) ∧
  HumanBaseline.predict route_data σ = (Returns human_prediction, σ) ∧
  (∀ (other : gmap string pyval) (τ : world),
     route_data_shape other →
     (LLM.predict other τ).1 = (LLM.predict route_data σ).1 ∧
     (HumanBaseline.predict other τ).1 = (HumanBaseline.predict route_data σ).1) ∧
  (∀ r : Route, route_data_shape (RouteEvaluator._route_to_dict r)).
Proof.
  intros Hshape.
  split; [apply llm_predict_run, route_data_shape_well_shaped, Hshape |].
  split; [reflexivity |].
  split; [| exact route_to_dict_shape].
  intros other τ Hother. split; [| reflexivity].
  rewrite !llm_predict_run
    by (apply route_data_shape_well_shaped; assumption).
  reflexivity.
Qed.

Lemma predict_constant_witness :
  LLM.predict test_route_data empty_world
    = (Returns llm_prediction, emit [generated test_route_data] empty_world) ∧
  HumanBaseline.predict test_route_data empty_world
    = (Returns human_prediction, empty_world) ∧
  (LLM.predict {["route_id" := PStr "test"]} three_world).1
    = (LLM.predict test_route_data empty_world).1.
Proof.
  assert (Hshape : route_data_shape test_route_data)
    by (repeat split; exact I).
  destruct (predict_constant test_route_data empty_world Hshape)
    as (Hllm & Hhuman & Hsame & _).
  split; [exact Hllm |]. split; [exact Hhuman |].
  apply Hsame. repeat split; exact I.
Defined.

(** *** The sample dataset *)

Lemma store_store l rs rs' σ : store l rs' (store l rs σ) = store l rs' σ.
Proof. unfold store. cbn. rewrite insert_insert_eq. reflexivity. Qed.

Lemma append_run l r σ rs :
  heap σ !! l = Some rs → append l r σ = (Returns (), store l (rs ++ [r]) σ).
Proof. intros H. unfold append. rewrite H. reflexivity. Qed.

Lemma append_loop (f : Z → M Route) (g : Z → Route) (l : loc) (xs : list Z) :
  (∀ i σ, i ∈ xs → f i σ = (Returns (g i), σ)) →
  ∀ σ rs, heap σ !! l = Some rs →
    for_each (λ _ i, route ← f i; append l route) () xs σ
    = (Returns (), store l (rs ++ (g <$> xs)) σ).
Proof.
  induction xs as [| x xs IH]; intros Hf σ rs H.
  - cbn. rewrite app_nil_r. unfold store. rewrite insert_id by exact H.
    destruct σ; reflexivity.
  - cbn [for_each fmap list_fmap].
    rewrite (bind_returns _ _ σ () (store l (rs ++ [g x]) σ)).
    + rewrite (IH (λ i σ' Hi, Hf i σ' (list_elem_of_further _ _ _ Hi))
                 _ (rs ++ [g x])) by apply lookup_insert_eq.
      rewrite store_store, <- app_assoc. reflexivity.
    + rewrite (bind_returns _ _ _ _ _ (Hf x σ (list_elem_of_here _ _))).
      apply append_run, H.
Qed.

Lemma sample_route_run i σ :
  i ∈ range 10 → sample_route i σ = (Returns (expected_route i), σ).
Proof.
  intros Hi. cbn in Hi.
  repeat (apply elem_of_cons in Hi as [-> | Hi]; [vm_compute; reflexivity |]).
  inversion Hi.
Qed.

Lemma load_dataset_run dataset_name data_path σ :
  load_dataset dataset_name data_path σ =
  (Returns {| routes := fresh (dom (heap σ)) |},
   emit [loading dataset_name; initialized 10; loaded 10]
     (store (fresh (dom (heap σ))) expected_routes σ)).
Proof.
  unfold load_dataset.
  rewrite bind_run. cbn [log]. rewrite bind_run. cbn [new_list heap trace].
  set (l := fresh (dom (heap σ))).
  rewrite (bind_returns _ _ _ () _
             (append_loop sample_route expected_route l (range 10)
                (λ i σ' Hi, sample_route_run i σ' Hi) _ [] (lookup_insert_eq _ _ _))).
  unfold store. cbn [heap trace app]. rewrite insert_insert_eq.
  erewrite bind_returns; [| apply init_run; apply lookup_insert_eq].
  erewrite bind_returns; [| apply len_run; apply lookup_insert_eq].
  rewrite bind_run. cbn [log heap trace emit]. rewrite <- !app_assoc. reflexivity.
Qed.

Lemma expected_routes_at (i : Z) :
  0 ≤ i < 10 → expected_routes !! Z.to_nat i = Some (expected_route i).
Proof.
  intros Hi.
  assert (i = 0 ∨ i = 1 ∨ i = 2 ∨ i = 3 ∨ i = 4 ∨
          i = 5 ∨ i = 6 ∨ i = 7 ∨ i = 8 ∨ i = 9) as Hcases by lia.
  repeat (destruct Hcases as [-> | Hcases]; [reflexivity |]).
  subst i. reflexivity.
Qed.

Lemma expected_difficulty (i : Z) :
  0 ≤ i < 10 →
  ["easy"; "medium"; "hard"] !! Z.to_nat (i `mod` 3) = Some (difficulty (expected_route i)).
Proof.
  intros Hi.
  assert (i = 0 ∨ i = 1 ∨ i = 2 ∨ i = 3 ∨ i = 4 ∨
          i = 5 ∨ i = 6 ∨ i = 7 ∨ i = 8 ∨ i = 9) as Hcases by lia.
  repeat (destruct Hcases as [-> | Hcases]; [reflexivity |]).
  subst i. reflexivity.
Qed.

(** C2. For every name and every [data_path], [load_dataset] returns a
    dataset of exactly ten routes, [route_000] to [route_009], with the
    coordinates, the difficulty cycle, the region and the metadata of the
    sample; it logs three records and opens no file; and every other call
    returns a dataset with an equal list of routes. *)
Theorem load_dataset_sample (dataset_name : string) (data_path : option string)
    (σ : world) :
  ∃ (D : RouteDataset) (σ' : world) (rs : list Route),
    load_dataset dataset_name data_path σ = (Returns D, σ') ∧
    heap σ' !! routes D = Some rs ∧
    len rs = 10 ∧
    route_id <$> rs =
      ["route_000"; "route_001"; "route_002"; "route_003"; "route_004";
       "route_005"; "route_006"; "route_007"; "route_008"; "route_009"] ∧
    (∀ i, 0 ≤ i < 10 →
       ∃ r, rs !! Z.to_nat i = Some r ∧
            route_id r = "route_00" +:+ pretty i ∧
            start_point r =
              {| latitude := 40.7128 + int_float i * 0.01;
                 longitude := -74.0060 + int_float i * 0.01;
                 timestamp := None; point_metadata := None |}%float ∧
            end_point r =
              {| latitude := 40.7228 + int_float i * 0.01;
                 longitude := -74.0160 + int_float i * 0.01;
                 timestamp := None; point_metadata := None |}%float ∧
            points r = [start_point r; end_point r] ∧
            ["easy"; "medium"; "hard"] !! Z.to_nat (i `mod` 3) = Some (difficulty r) ∧
            region r = "New York" ∧
            metadata r = Some {["sample" := PBool true]}) ∧
    trace σ' = trace σ ++ [loading dataset_name; initialized 10; loaded 10] ∧
    (∀ path mode, FileOpen path mode ∈ trace σ' → FileOpen path mode ∈ trace σ) ∧
    (∀ l, l ∈ dom (heap σ) → heap σ' !! l = heap σ !! l) ∧
    (∀ (dataset_name' : string) (data_path' : option string) (τ : world),
       ∃ (D' : RouteDataset) (τ' : world),
         load_dataset dataset_name' data_path' τ = (Returns D', τ') ∧
         heap τ' !! routes D' = Some rs).
Proof.
  eexists _, _, expected_routes.
  split; [apply load_dataset_run |].
  split; [apply lookup_insert_eq |].
  split; [reflexivity |].
  split; [reflexivity |].
  split.
  { intros i Hi. exists (expected_route i).
    split; [apply expected_routes_at, Hi |].
    repeat split. apply expected_difficulty, Hi. }
  split; [reflexivity |].
  split.
  { intros path mode. cbn [emit trace store].
    rewrite elem_of_app. intros [Hold | Hnew]; [exact Hold |].
    repeat (apply elem_of_cons in Hnew as [Hnew | Hnew]; [discriminate |]).
    inversion Hnew. }
  split.
  { intros l Hl. cbn. apply lookup_insert_ne. intros E. subst l.
    exact (is_fresh (dom (heap σ)) Hl). }
  intros dataset_name' data_path' τ. eexists _, _.
  split; [apply load_dataset_run |]. apply lookup_insert_eq.
Qed.

(** The first coordinates of the sample, as decimals that read back to
    the same floats: the sums are rounded binary sums. *)
Example sample_coordinates :
  latitude (start_point (expected_route 0)) = 40.7128%float ∧
  latitude (start_point (expected_route 1)) = 40.722799999999999%float ∧
  latitude (start_point (expected_route 2)) = 40.732800000000005%float ∧
  longitude (end_point (expected_route 9)) = (-73.926000000000002)%float.
Proof. repeat split; vm_compute; reflexivity. Qed.

(** *** The evaluator *)

Lemma emit_nil σ : emit [] σ = σ.
Proof. unfold emit. rewrite app_nil_r. destruct σ; reflexivity. Qed.

Lemma emit_emit es es' σ : emit es' (emit es σ) = emit (es ++ es') σ.
Proof. unfold emit. cbn. rewrite app_assoc. reflexivity. Qed.

Lemma route_to_dict_shaped (r : Route) :
  well_shaped (RouteEvaluator._route_to_dict r).
Proof.
  unfold well_shaped, dict_or_absent, RouteEvaluator._route_to_dict. split.
  - rewrite lookup_insert_ne by discriminate. rewrite lookup_insert_eq. exact I.
  - do 2 (rewrite lookup_insert_ne by discriminate).
    rewrite lookup_insert_eq. exact I.
Qed.

Lemma predict_route_run model r σ :
  predict model (RouteEvaluator._route_to_dict r) σ =
  (Returns (constant_prediction model), emit (prediction_events model [r]) σ).
Proof.
  destruct model as [name key cfg |]; cbn [predict constant_prediction prediction_events].
  - apply llm_predict_run, route_to_dict_shaped.
  - rewrite emit_nil. reflexivity.
Qed.

Lemma prediction_events_cons model r rs :
  prediction_events model (r :: rs) =
  prediction_events model [r] ++ prediction_events model rs.
Proof. destruct model; reflexivity. Qed.

Lemma predict_all_run model rs : ∀ ps gs σ,
  predict_all model rs (ps, gs) σ =
  (Returns (ps ++ replicate (length rs) (constant_prediction model), gs ++ rs),
   emit (prediction_events model rs) σ).
Proof.
  induction rs as [| r rs IH]; intros ps gs σ.
  - cbn. rewrite !app_nil_r. destruct model; cbn; rewrite emit_nil; reflexivity.
  - unfold predict_all. cbn [for_each].
    rewrite (bind_returns _ _ σ
               (ps ++ [constant_prediction model], gs ++ [r])
               (emit (prediction_events model [r]) σ)).
    + fold (predict_all model rs (ps ++ [constant_prediction model], gs ++ [r])).
      rewrite IH, emit_emit, <- prediction_events_cons, <- !app_assoc.
      reflexivity.
    + rewrite (bind_returns _ _ _ _ _ (predict_route_run model r σ)). reflexivity.
Qed.

Lemma compute_by_difficulty_unfold model dataset predictions ground_truths :
  RouteEvaluator._compute_by_difficulty model dataset predictions ground_truths =
  for_each (by_difficulty_step dataset) ∅ ["easy"; "medium"; "hard"].
Proof. reflexivity. Qed.

Lemma by_difficulty_step_run D level i acc σ rs :
  heap σ !! routes D = Some rs →
  (∀ τ, index level ["easy"; "medium"; "hard"] τ = (Returns i, τ)) →
  (∀ τ, float_mul 0.15 (PInt i) τ = (Returns (0.15 * int_float i)%float, τ)) →
  by_difficulty_step D acc level σ =
  (Returns (<[level := bucket i (of_level level rs)]> acc),
   filtered (of_level level rs) σ).
Proof.
  intros H Hindex Hmul. unfold by_difficulty_step.
  rewrite (bind_returns _ _ _ _ _ (filter_by_difficulty_run D level σ rs H)).
  fold (of_level level rs).
  rewrite (bind_returns _ _ _ _ _
             (len_run {| routes := fresh (dom (heap σ)) |} _ _
                (filtered_new σ (of_level level rs)))).
  unfold bucket. destruct (0 <? len (of_level level rs)).
  - rewrite (bind_returns _ _ _ _ _ (Hindex _)).
    rewrite (bind_returns _ _ _ _ _ (Hmul _)).
    rewrite (bind_returns _ _ _ _ _
               (len_run {| routes := fresh (dom (heap σ)) |} _ _
                (filtered_new σ (of_level level rs)))).
    reflexivity.
  - reflexivity.
Qed.

Lemma bucketed_keeps σ l rs rs' :
  heap σ !! l = Some rs' → heap (bucketed rs σ) !! l = Some rs'.
Proof. intros H. unfold bucketed. do 3 apply filtered_keeps. exact H. Qed.

Lemma compute_by_difficulty_run model D ps gs σ rs :
  heap σ !! routes D = Some rs →
  RouteEvaluator._compute_by_difficulty model D ps gs σ =
  (Returns (by_difficulty_of rs), bucketed rs σ).
Proof.
  intros H. rewrite compute_by_difficulty_unfold. cbn [for_each].
  erewrite bind_returns;
    [| apply (by_difficulty_step_run D "easy" 0 _ _ rs H); reflexivity].
  erewrite bind_returns;
    [| apply (by_difficulty_step_run D "medium" 1 _ _ rs
               (filtered_keeps _ _ _ _ H)); reflexivity].
  erewrite bind_returns;
    [| apply (by_difficulty_step_run D "hard" 2 _ _ rs
               (filtered_keeps _ _ _ _ (filtered_keeps _ _ _ _ H))); reflexivity].
  reflexivity.
Qed.

Lemma results_of_initial name n :
  <["model_name" := PStr name]>
    (<["dataset_size" := PInt n]> (<["metrics" := PDict ∅]> ∅))
  = results_of name n ∅.
Proof.
  unfold results_of.
  rewrite (insert_insert_ne _ "dataset_size" "metrics") by discriminate.
  rewrite (insert_insert_ne _ "model_name" "metrics") by discriminate.
  reflexivity.
Qed.

Lemma set_metric_run name n m key v σ :
  RouteEvaluator.set_metric (results_of name n m) key v σ =
  (Returns (results_of name n (<[key := v]> m)), σ).
Proof.
  unfold RouteEvaluator.set_metric, results_of.
  rewrite lookup_insert_eq, insert_insert_eq. reflexivity.
Qed.

Lemma get_metrics_run name n m σ :
  RouteEvaluator.get_metrics (results_of name n m) σ = (Returns m, σ).
Proof.
  unfold RouteEvaluator.get_metrics, results_of.
  rewrite lookup_insert_eq. reflexivity.
Qed.

Lemma compute_overall_score_formula (m : gmap string pyval) (a s e d : float) σ :
  m !! "accuracy" = Some (PFloat a) →
  m !! "spatial_accuracy" = Some (PFloat s) →
  m !! "semantic_similarity" = Some (PFloat e) →
  m !! "route_deviation" = Some (PFloat d) →
  RouteEvaluator._compute_overall_score m σ = (Returns (weighted_score a s e d), σ).
Proof.
  intros Ha Hs He Hd.
  unfold RouteEvaluator._compute_overall_score, dict_get, weighted_score.
  rewrite Ha, Hs, He, Hd. unfold max_0.
  change (div_int (PFloat d) 10) with (mret (M := M) (d / 10)%float).
  rewrite bind_run. cbn [mret M_ret].
  destruct (0 <? 1 - d / 10)%float; reflexivity.
Qed.

Lemma compute_overall_score_run (m : gmap string pyval) σ :
  m !! "accuracy" = Some (PFloat 0.75) →
  m !! "spatial_accuracy" = Some (PFloat 0.68) →
  m !! "semantic_similarity" = Some (PFloat 0.72) →
  m !! "route_deviation" = Some (PFloat 2.5) →
  RouteEvaluator._compute_overall_score m σ = (Returns 0.723%float, σ).
Proof.
  intros Ha Hs Hm Hd.
  rewrite (compute_overall_score_formula m _ _ _ _ σ Ha Hs Hm Hd).
  reflexivity.
Qed.

Lemma final_metrics_lookup rs :
  final_metrics rs !! "accuracy" = Some (PFloat 0.75) ∧
  final_metrics rs !! "spatial_accuracy" = Some (PFloat 0.68) ∧
  final_metrics rs !! "semantic_similarity" = Some (PFloat 0.72) ∧
  final_metrics rs !! "route_deviation" = Some (PFloat 2.5) ∧
  final_metrics rs !! "by_difficulty" = Some (PDict (by_difficulty_of rs)).
Proof.
  unfold final_metrics.
  repeat split;
    repeat (rewrite lookup_insert_ne by discriminate); apply lookup_insert_eq.
Qed.

Lemma evaluate_run self model D σ rs :
  heap σ !! routes D = Some rs →
  RouteEvaluator.evaluate self model D σ =
  (Returns (final_results model rs), evaluated model rs σ).
Proof.
  intros H. unfold RouteEvaluator.evaluate.
  rewrite (bind_returns _ _ _ _ _ (len_run D σ rs H)).
  rewrite (bind_returns _ _ _ _ _ (read_list_run σ _ rs H)).
  rewrite results_of_initial.
  change (for_each _ ([], []) rs) with (predict_all model rs ([], [])).
  rewrite (bind_returns _ _ _ _ _ (predict_all_run model rs [] [] σ)).
  cbn beta iota.
  do 4 (rewrite (bind_returns _ _ _ _ _ (set_metric_run _ _ _ _ _ _))).
  rewrite (bind_returns _ _ _ _ _
             (compute_by_difficulty_run model D _ _
                (emit (prediction_events model rs) σ) rs H)).
  rewrite (bind_returns _ _ _ _ _ (set_metric_run _ _ _ _ _ _)).
  rewrite (bind_returns _ _ _ _ _ (get_metrics_run _ _ _ _)).
  destruct (final_metrics_lookup rs) as (Ha & Hs & Hm & Hd & _).
  rewrite (bind_returns _ _ _ _ _
             (compute_overall_score_run (final_metrics rs) _ Ha Hs Hm Hd)).
  reflexivity.
Qed.

Lemma final_results_lookup model rs :
  final_results model rs !! "overall_score" = Some (PFloat 0.723) ∧
  final_results model rs !! "metrics" = Some (PDict (final_metrics rs)) ∧
  final_results model rs !! "model_name" = Some (PStr (model_name model)) ∧
  final_results model rs !! "dataset_size" = Some (PInt (len rs)).
Proof.
  unfold final_results, results_of.
  repeat split;
    repeat (rewrite lookup_insert_ne by discriminate); apply lookup_insert_eq.
Qed.

Lemma by_difficulty_lookup rs :
  by_difficulty_of rs !! "easy" = Some (bucket 0 (of_level "easy" rs)) ∧
  by_difficulty_of rs !! "medium" = Some (bucket 1 (of_level "medium" rs)) ∧
  by_difficulty_of rs !! "hard" = Some (bucket 2 (of_level "hard" rs)).
Proof.
  unfold by_difficulty_of.
  repeat split;
    repeat (rewrite lookup_insert_ne by discriminate); apply lookup_insert_eq.
Qed.

Lemma bucket_some i kept :
  0 < len kept → bucket i kept = entry (0.80 - 0.15 * int_float i) (len kept).
Proof.
  intros Hn. unfold bucket.
  destruct (Z.ltb_spec 0 (len kept)); [reflexivity | lia].
Qed.

Lemma bucket_none i kept : len kept = 0 → bucket i kept = entry 0.0 0.
Proof. intros Hn. unfold bucket. rewrite Hn. reflexivity. Qed.

(** C1. For every model and every dataset, [evaluate] returns an
    [overall_score] of 0.723.  [_compute_overall_score] is the weighted
    sum [0.3 * accuracy + 0.3 * spatial_accuracy + 0.2 *
    semantic_similarity + 0.2 * max(0, 1 - route_deviation / 10)] rounded
    to three decimals, the metrics are the constants 0.75, 0.68, 0.72 and
    2.5 whatever the model and the dataset, and the sum of these rounds
    to 0.723. *)
Theorem overall_score_constant (self : RouteEvaluator) (model : BaseModel)
    (D : RouteDataset) (σ : world) (rs : list Route) :
  heap σ !! routes D = Some rs →
  ∃ (results : gmap string pyval) (σ' : world) (m : gmap string pyval),
    RouteEvaluator.evaluate self model D σ = (Returns results, σ') ∧
    results !! "overall_score" = Some (PFloat 0.723) ∧
    results !! "metrics" = Some (PDict m) ∧
    m !! "accuracy" = Some (PFloat 0.75) ∧
    m !! "spatial_accuracy" = Some (PFloat 0.68) ∧
    m !! "semantic_similarity" = Some (PFloat 0.72) ∧
    m !! "route_deviation" = Some (PFloat 2.5) ∧
    (∀ (m' : gmap string pyval) (a s e d : float) (τ : world),
       m' !! "accuracy" = Some (PFloat a) →
       m' !! "spatial_accuracy" = Some (PFloat s) →
       m' !! "semantic_similarity" = Some (PFloat e) →
       m' !! "route_deviation" = Some (PFloat d) →
       RouteEvaluator._compute_overall_score m' τ
         = (Returns (weighted_score a s e d), τ)) ∧
    weighted_score 0.75 0.68 0.72 2.5 = 0.723%float.
Proof.
  intros H. exists (final_results model rs), (evaluated model rs σ), (final_metrics rs).
  destruct (final_results_lookup model rs) as (Ho & Hm & _).
  destruct (final_metrics_lookup rs) as (Ha & Hs & Hsem & Hd & _).
  split; [exact (evaluate_run self model D σ rs H) |].
  repeat (split; [assumption |]).
  split; [| vm_compute; reflexivity].
  intros m' a s e d τ. apply compute_overall_score_formula.
Qed.

Lemma overall_score_constant_witness :
  ∃ (r1 r2 : gmap string pyval) (σ1 σ2 : world),
    RouteEvaluator.evaluate default_evaluator HumanBaselineModel
      first_dataset three_world = (Returns r1, σ1) ∧
    RouteEvaluator.evaluate default_evaluator (LLMModel "gpt-4" None ∅)
      first_dataset empty_dataset_world = (Returns r2, σ2) ∧
    r1 !! "overall_score" = Some (PFloat 0.723) ∧
    r2 !! "overall_score" = Some (PFloat 0.723).
Proof.
  destruct (overall_score_constant default_evaluator HumanBaselineModel
              first_dataset three_world three_routes eq_refl)
    as (r1 & σ1 & _ & E1 & S1 & _).
  destruct (overall_score_constant default_evaluator (LLMModel "gpt-4" None ∅)
              first_dataset empty_dataset_world [] eq_refl)
    as (r2 & σ2 & _ & E2 & S2 & _).
  exists r1, r2, σ1, σ2. repeat split; assumption.
Defined.

(** C3. The [by_difficulty] metrics have the three keys easy, medium and
    hard.  A difficulty at position [i] of [easy, medium, hard] with at
    least one route in the dataset is given the accuracy
    [0.80 - 0.15 * i], that is 0.80, 0.65 and 0.50, and the number of its
    routes; a difficulty without routes is given 0.0 and 0. *)
Theorem by_difficulty_entries (self : RouteEvaluator) (model : BaseModel)
    (D : RouteDataset) (σ : world) (rs : list Route) :
  heap σ !! routes D = Some rs →
  ∃ (results : gmap string pyval) (σ' : world) (m by_difficulty : gmap string pyval),
    RouteEvaluator.evaluate self model D σ = (Returns results, σ') ∧
    results !! "metrics" = Some (PDict m) ∧
    m !! "by_difficulty" = Some (PDict by_difficulty) ∧
    dom by_difficulty = ({["easy"; "medium"; "hard"]} : gset string) ∧
    (∀ (level : string) (i : Z),
       ["easy"; "medium"; "hard"] !! Z.to_nat i = Some level → 0 ≤ i →
       let kept := filter (λ r, difficulty r = level) rs in
       (0 < len kept →
          by_difficulty !! level
            = Some (entry (0.80 - 0.15 * int_float i) (len kept))) ∧
       (len kept = 0 → by_difficulty !! level = Some (entry 0.0 0))) ∧
    (0.80 - 0.15 * int_float 0 = 0.80)%float ∧
    (0.80 - 0.15 * int_float 1 = 0.65)%float ∧
    (0.80 - 0.15 * int_float 2 = 0.50)%float.
Proof.
  intros H.
  exists (final_results model rs), (evaluated model rs σ),
    (final_metrics rs), (by_difficulty_of rs).
  destruct (final_results_lookup model rs) as (_ & Hm & _).
  destruct (final_metrics_lookup rs) as (_ & _ & _ & _ & Hb).
  destruct (by_difficulty_lookup rs) as (He & Hmed & Hh).
  split; [exact (evaluate_run self model D σ rs H) |].
  split; [exact Hm |]. split; [exact Hb |].
  split.
  { unfold by_difficulty_of. rewrite !dom_insert_L, dom_empty_L.
    apply set_eq. intros x. rewrite !elem_of_union, !elem_of_singleton.
    rewrite elem_of_empty. tauto. }
  split; [| repeat split; vm_compute; reflexivity].
  intros level i Hlevel Hi kept.
  assert (i = 0 ∨ i = 1 ∨ i = 2) as [-> | [-> | ->]].
  { apply lookup_lt_Some in Hlevel. cbn in Hlevel. lia. }
  all: cbn in Hlevel; injection Hlevel as <-.
  - rewrite He. split; intros Hn; f_equal; [apply bucket_some | apply bucket_none]; exact Hn.
  - rewrite Hmed. split; intros Hn; f_equal; [apply bucket_some | apply bucket_none]; exact Hn.
  - rewrite Hh. split; intros Hn; f_equal; [apply bucket_some | apply bucket_none]; exact Hn.
Qed.

Lemma by_difficulty_entries_witness :
  ∃ (results : gmap string pyval) (σ' : world) (m by_difficulty : gmap string pyval),
    RouteEvaluator.evaluate default_evaluator HumanBaselineModel
      first_dataset scenario_world = (Returns results, σ') ∧
    results !! "metrics" = Some (PDict m) ∧
    m !! "by_difficulty" = Some (PDict by_difficulty) ∧
    by_difficulty !! "easy" = Some (entry 0.80 1) ∧
    by_difficulty !! "medium" = Some (entry 0.65 1) ∧
    by_difficulty !! "hard" = Some (entry 0.50 1).
Proof.
  destruct (by_difficulty_entries default_evaluator HumanBaselineModel
              first_dataset scenario_world scenario_routes eq_refl)
    as (results & σ' & m & bd & E & Hm & Hb & _ & Hall & F0 & F1 & F2).
  exists results, σ', m, bd.
  split; [exact E |]. split; [exact Hm |]. split; [exact Hb |].
  split; [| split].
  - destruct (Hall "easy" 0 eq_refl) as [Hsome _]; [lia |].
    rewrite <- F0. apply Hsome. unfold len; simpl; lia.
  - destruct (Hall "medium" 1 eq_refl) as [Hsome _]; [lia |].
    rewrite <- F1. apply Hsome. unfold len; simpl; lia.
  - destruct (Hall "hard" 2 eq_refl) as [Hsome _]; [lia |].
    rewrite <- F2. apply Hsome. unfold len; simpl; lia.
Defined.

(** C4. On a dataset without routes [evaluate] raises nothing: it
    returns a result with [dataset_size] 0, the four base metrics at
    their constants, the three difficulty entries at accuracy 0.0 and
    count 0, and an [overall_score] of 0.723. *)
Theorem evaluate_empty (self : RouteEvaluator) (model : BaseModel)
    (D : RouteDataset) (σ : world) :
  heap σ !! routes D = Some [] →
  ∃ (results : gmap string pyval) (σ' : world) (m by_difficulty : gmap string pyval),
    RouteEvaluator.evaluate self model D σ = (Returns results, σ') ∧
    results !! "dataset_size" = Some (PInt 0) ∧
    results !! "model_name" = Some (PStr (model_name model)) ∧
    results !! "overall_score" = Some (PFloat 0.723) ∧
    results !! "metrics" = Some (PDict m) ∧
    m !! "accuracy" = Some (PFloat 0.75) ∧
    m !! "spatial_accuracy" = Some (PFloat 0.68) ∧
    m !! "route_deviation" = Some (PFloat 2.5) ∧
    m !! "semantic_similarity" = Some (PFloat 0.72) ∧
    m !! "by_difficulty" = Some (PDict by_difficulty) ∧
    by_difficulty =
      <["hard" := entry 0.0 0]>
      (<["medium" := entry 0.0 0]> (<["easy" := entry 0.0 0]> ∅)).
Proof.
  intros H.
  exists (final_results model []), (evaluated model [] σ),
    (final_metrics []), (by_difficulty_of []).
  destruct (final_results_lookup model []) as (Ho & Hm & Hn & Hsize).
  destruct (final_metrics_lookup []) as (Ha & Hs & Hsem & Hd & Hb).
  split; [exact (evaluate_run self model D σ [] H) |].
  repeat (split; [assumption |]). reflexivity.
Qed.

Lemma evaluate_empty_witness :
  ∃ (results : gmap string pyval) (σ' : world),
    RouteEvaluator.evaluate default_evaluator (LLMModel "gpt-4" None ∅)
      first_dataset empty_dataset_world = (Returns results, σ') ∧
    results !! "dataset_size" = Some (PInt 0) ∧
    results !! "overall_score" = Some (PFloat 0.723).
Proof.
  destruct (evaluate_empty default_evaluator (LLMModel "gpt-4" None ∅)
              first_dataset empty_dataset_world eq_refl)
    as (results & σ' & _ & _ & E & Hsize & _ & Hscore & _).
  exists results, σ'. repeat split; assumption.
Defined.


(** ** Further properties of the package *)

(** *** The dataset and its list *)

Lemma get_statistics_run D σ rs :
  heap σ !! routes D = Some rs →
  RouteDataset.get_statistics D σ =
  (Returns (<["total_routes" := PInt (len rs)]>
           (<["difficulty_distribution" :=
                PDict (PInt <$> RouteDataset.distribution (difficulty <$> rs))]>
           (<["region_distribution" :=
                PDict (PInt <$> RouteDataset.distribution (region <$> rs))]> ∅))),
   σ).
Proof.
  intros H. unfold RouteDataset.get_statistics.
  rewrite (bind_returns _ _ _ _ _ (read_list_run _ _ _ H)). reflexivity.
Qed.

Lemma count_fmap (f : Route → string) (v : string) (rs : list Route) :
  count v (f <$> rs) = len (filter (λ r, f r = v) rs).
Proof.
  induction rs as [| r rs IH]; [reflexivity |].
  rewrite fmap_cons, count_cons, filter_cons, IH.
  destruct (decide (f r = v)); unfold len; cbn [length]; lia.
Qed.

Lemma count_absent (v : string) (xs : list string) : v ∉ xs → count v xs = 0.
Proof.
  intros Hv. induction xs as [| x xs IH]; [reflexivity |].
  rewrite count_cons, IH by (intros ?; apply Hv; right; assumption).
  rewrite decide_False; [reflexivity |]. intros ->. apply Hv. left.
Qed.

Lemma distribution_default (f : Route → string) (v : string) (rs : list Route) :
  default 0 (RouteDataset.distribution (f <$> rs) !! v)
  = len (filter (λ r, f r = v) rs).
Proof.
  rewrite distribution_lookup. destruct (decide (v ∈ f <$> rs)) as [Hin | Hout]; cbn.
  - apply count_fmap.
  - rewrite <- count_fmap. symmetry. apply count_absent, Hout.
Qed.

(** X1. A [RouteDataset] does not copy the list it is built from: after
    an [append] to that list the dataset is one route longer and the new
    route is its last. *)
Theorem dataset_shares_list (l : loc) (r : Route) (σ : world) (rs : list Route) :
  heap σ !! l = Some rs →
  ∃ (D : RouteDataset) (σ1 σ2 : world),
    RouteDataset.__init__ l σ = (Returns D, σ1) ∧
    RouteDataset.__len__ D σ1 = (Returns (len rs), σ1) ∧
    append l r σ1 = (Returns (), σ2) ∧
    RouteDataset.__len__ D σ2 = (Returns (len rs + 1), σ2) ∧
    RouteDataset.__getitem__ D (- 1) σ2 = (Returns r, σ2).
Proof.
  intros H.
  exists {| routes := l |}, (emit [initialized (len rs)] σ),
    (store l (rs ++ [r]) (emit [initialized (len rs)] σ)).
  assert (H2 : heap (store l (rs ++ [r]) (emit [initialized (len rs)] σ))
               !! routes {| routes := l |} = Some (rs ++ [r]))
    by apply lookup_insert_eq.
  split; [exact (init_run σ l rs H) |].
  split; [exact (len_run {| routes := l |} (emit _ σ) rs H) |].
  split; [exact (append_run l r (emit _ σ) rs H) |].
  split.
  - rewrite (len_run _ _ _ H2). unfold len. rewrite length_app. cbn.
    do 2 f_equal. lia.
  - rewrite (getitem_run _ _ _ _ H2).
    destruct (getitem_from_end (rs ++ [r]) (- 1)
                (store l (rs ++ [r]) (emit [initialized (len rs)] σ)))
      as (r' & Hr' & E).
    { unfold len. rewrite length_app. cbn. lia. }
    rewrite E. do 2 f_equal.
    replace (Z.to_nat (len (rs ++ [r]) + - 1)) with (length rs + 0)%nat in Hr'
      by (unfold len; rewrite length_app; cbn; lia).
    rewrite lookup_app_r, Nat.add_comm, Nat.add_sub in Hr' by lia.
    cbn in Hr'. congruence.
Qed.

Lemma dataset_shares_list_witness :
  ∃ (D : RouteDataset) (σ1 σ2 : world),
    RouteDataset.__init__ 1%positive three_world = (Returns D, σ1) ∧
    append 1%positive (route_of "d" "medium" "Elsewhere") σ1 = (Returns (), σ2) ∧
    RouteDataset.__len__ D σ2 = (Returns 4, σ2) ∧
    RouteDataset.__getitem__ D (- 1) σ2
      = (Returns (route_of "d" "medium" "Elsewhere"), σ2).
Proof.
  destruct (dataset_shares_list 1%positive (route_of "d" "medium" "Elsewhere")
              three_world three_routes eq_refl)
    as (D & σ1 & σ2 & E1 & _ & E2 & E3 & E4).
  exists D, σ1, σ2. repeat split; assumption.
Defined.

(** X2. Filtering and the statistics agree: the length of
    [D.filter_by_difficulty(v)] is the entry of [v] in
    [difficulty_distribution], or 0 when [v] has no entry; likewise for
    [filter_by_region] and [region_distribution]. *)
Theorem filter_agrees_with_statistics (D : RouteDataset) (v : string)
    (σ : world) (rs : list Route) :
  heap σ !! routes D = Some rs →
  let by_level := RouteDataset.distribution (difficulty <$> rs) in
  let by_region := RouteDataset.distribution (region <$> rs) in
  ∃ (stats : gmap string pyval) (Dl Dr : RouteDataset) (σl σr : world),
    RouteDataset.get_statistics D σ = (Returns stats, σ) ∧
    stats !! "difficulty_distribution" = Some (PDict (PInt <$> by_level)) ∧
    stats !! "region_distribution" = Some (PDict (PInt <$> by_region)) ∧
    RouteDataset.filter_by_difficulty D v σ = (Returns Dl, σl) ∧
    RouteDataset.__len__ Dl σl = (Returns (default 0 (by_level !! v)), σl) ∧
    RouteDataset.filter_by_region D v σ = (Returns Dr, σr) ∧
    RouteDataset.__len__ Dr σr = (Returns (default 0 (by_region !! v)), σr).
Proof.
  intros H by_level by_region. eexists _, _, _, _, _.
  split; [exact (get_statistics_run D σ rs H) |].
  split; [rewrite lookup_insert_ne by discriminate; apply lookup_insert_eq |].
  split; [do 2 (rewrite lookup_insert_ne by discriminate); apply lookup_insert_eq |].
  split; [exact (filter_by_difficulty_run D v σ rs H) |].
  split.
  { unfold by_level. rewrite distribution_default.
    exact (len_run {| routes := fresh (dom (heap σ)) |} _ _ (filtered_new σ _)). }
  split; [exact (filter_by_region_run D v σ rs H) |].
  unfold by_region. rewrite distribution_default.
  exact (len_run {| routes := fresh (dom (heap σ)) |} _ _ (filtered_new σ _)).
Qed.

Lemma filter_agrees_with_statistics_witness :
  ∃ (Dl Dr : RouteDataset) (σl σr : world),
    RouteDataset.filter_by_difficulty first_dataset "easy" three_world
      = (Returns Dl, σl) ∧
    RouteDataset.__len__ Dl σl = (Returns 2, σl) ∧
    RouteDataset.filter_by_region first_dataset "Mars" three_world
      = (Returns Dr, σr) ∧
    RouteDataset.__len__ Dr σr = (Returns 0, σr).
Proof.
  destruct (filter_agrees_with_statistics first_dataset "easy"
              three_world three_routes eq_refl)
    as (_ & Dl & _ & σl & _ & _ & _ & _ & El & Ll & _).
  destruct (filter_agrees_with_statistics first_dataset "Mars"
              three_world three_routes eq_refl)
    as (_ & _ & Dr & _ & σr & _ & _ & _ & _ & _ & Er & Lr).
  exists Dl, Dr, σl, σr.
  split; [exact El |]. split; [exact Ll |]. split; [exact Er | exact Lr].
Defined.

(** *** Filters compose *)

Lemma filtered_dataset σ kept :
  heap (filtered kept σ) !! routes {| routes := fresh (dom (heap σ)) |} = Some kept.
Proof. apply filtered_new. Qed.

Lemma filter_then_region D a b σ rs :
  heap σ !! routes D = Some rs →
  ∃ (D1 D2 : RouteDataset) (σ1 σ2 : world),
    RouteDataset.filter_by_difficulty D a σ = (Returns D1, σ1) ∧
    RouteDataset.filter_by_region D1 b σ1 = (Returns D2, σ2) ∧
    heap σ2 !! routes D2
      = Some (filter (λ r, region r = b) (filter (λ r, difficulty r = a) rs)).
Proof.
  intros H. eexists _, _, _, _.
  split; [exact (filter_by_difficulty_run D a σ rs H) |].
  split; [exact (filter_by_region_run _ b _ _ (filtered_dataset σ _)) |].
  apply filtered_new.
Qed.

Lemma region_then_filter D a b σ rs :
  heap σ !! routes D = Some rs →
  ∃ (D1 D2 : RouteDataset) (σ1 σ2 : world),
    RouteDataset.filter_by_region D b σ = (Returns D1, σ1) ∧
    RouteDataset.filter_by_difficulty D1 a σ1 = (Returns D2, σ2) ∧
    heap σ2 !! routes D2
      = Some (filter (λ r, difficulty r = a) (filter (λ r, region r = b) rs)).
Proof.
  intros H. eexists _, _, _, _.
  split; [exact (filter_by_region_run D b σ rs H) |].
  split; [exact (filter_by_difficulty_run _ a _ _ (filtered_dataset σ _)) |].
  apply filtered_new.
Qed.

(** X3. The two filters commute: filtering by difficulty and then by
    region keeps the same routes, in the same order, as filtering by
    region and then by difficulty, namely the routes of [D] that match
    both. *)
Theorem filters_commute (D : RouteDataset) (a b : string) (σ : world)
    (rs : list Route) :
  heap σ !! routes D = Some rs →
  ∃ (D1 D2 E1 E2 : RouteDataset) (σ1 σ2 τ1 τ2 : world) (kept : list Route),
    RouteDataset.filter_by_difficulty D a σ = (Returns D1, σ1) ∧
    RouteDataset.filter_by_region D1 b σ1 = (Returns D2, σ2) ∧
    RouteDataset.filter_by_region D b σ = (Returns E1, τ1) ∧
    RouteDataset.filter_by_difficulty E1 a τ1 = (Returns E2, τ2) ∧
    heap σ2 !! routes D2 = Some kept ∧
    heap τ2 !! routes E2 = Some kept ∧
    kept = filter (λ r, difficulty r = a ∧ region r = b) rs.
Proof.
  intros H.
  destruct (filter_then_region D a b σ rs H) as (D1 & D2 & σ1 & σ2 & F1 & F2 & K).
  destruct (region_then_filter D a b σ rs H) as (E1 & E2 & τ1 & τ2 & G1 & G2 & K').
  exists D1, D2, E1, E2, σ1, σ2, τ1, τ2, (filter (λ r, difficulty r = a ∧ region r = b) rs).
  repeat (split; [assumption |]).
  split; [| split; [| reflexivity]].
  - rewrite K. f_equal. rewrite list_filter_filter.
    apply list_filter_iff. intros r. tauto.
  - rewrite K'. f_equal. apply list_filter_filter.
Qed.

Lemma filters_commute_witness :
  ∃ (D1 D2 E1 E2 : RouteDataset) (σ1 σ2 τ1 τ2 : world),
    RouteDataset.filter_by_difficulty first_dataset "easy" three_world
      = (Returns D1, σ1) ∧
    RouteDataset.filter_by_region D1 "Elsewhere" σ1 = (Returns D2, σ2) ∧
    RouteDataset.filter_by_region first_dataset "Elsewhere" three_world
      = (Returns E1, τ1) ∧
    RouteDataset.filter_by_difficulty E1 "easy" τ1 = (Returns E2, τ2) ∧
    heap σ2 !! routes D2 = Some [route_of "c" "easy" "Elsewhere"] ∧
    heap τ2 !! routes E2 = Some [route_of "c" "easy" "Elsewhere"].
Proof.
  destruct (filters_commute first_dataset "easy" "Elsewhere" three_world
              three_routes eq_refl)
    as (D1 & D2 & E1 & E2 & σ1 & σ2 & τ1 & τ2 & kept
        & F1 & F2 & G1 & G2 & K1 & K2 & ->).
  exists D1, D2, E1, E2, σ1, σ2, τ1, τ2. repeat split; assumption.
Defined.

(** X4. Filtering twice by difficulty: with the same value the second
    filter keeps everything the first kept; with another value it keeps
    nothing. *)
Theorem filter_twice (D : RouteDataset) (a b : string) (σ : world)
    (rs : list Route) :
  heap σ !! routes D = Some rs →
  ∃ (D1 D2 : RouteDataset) (σ1 σ2 : world) (once twice : list Route),
    RouteDataset.filter_by_difficulty D a σ = (Returns D1, σ1) ∧
    heap σ1 !! routes D1 = Some once ∧
    RouteDataset.filter_by_difficulty D1 b σ1 = (Returns D2, σ2) ∧
    heap σ2 !! routes D2 = Some twice ∧
    heap σ2 !! routes D1 = Some once ∧
    (a = b → twice = once) ∧
    (a ≠ b → twice = []).
Proof.
  intros H.
  exists {| routes := fresh (dom (heap σ)) |},
    {| routes := fresh (dom (heap (filtered (of_level a rs) σ))) |},
    (filtered (of_level a rs) σ),
    (filtered (of_level b (of_level a rs)) (filtered (of_level a rs) σ)),
    (of_level a rs), (of_level b (of_level a rs)).
  split; [exact (filter_by_difficulty_run D a σ rs H) |].
  split; [apply filtered_new |].
  split; [exact (filter_by_difficulty_run _ b _ _ (filtered_dataset σ _)) |].
  split; [apply filtered_new |].
  split; [apply filtered_keeps, filtered_new |].
  unfold of_level. rewrite list_filter_filter. split.
  - intros <-. apply list_filter_iff. intros r. tauto.
  - intros Hne. apply (filter_facts (λ r, difficulty r = b ∧ difficulty r = a) rs).
    intros r _ [Hb Ha]. congruence.
Qed.

Lemma filter_twice_witness :
  ∃ (D1 D2 D3 : RouteDataset) (σ1 σ2 σ3 : world),
    RouteDataset.filter_by_difficulty first_dataset "easy" three_world
      = (Returns D1, σ1) ∧
    RouteDataset.filter_by_difficulty D1 "easy" σ1 = (Returns D2, σ2) ∧
    heap σ2 !! routes D2
      = Some [route_of "a" "easy" "Test Region"; route_of "c" "easy" "Elsewhere"] ∧
    RouteDataset.filter_by_difficulty D1 "hard" σ1 = (Returns D3, σ3) ∧
    heap σ3 !! routes D3 = Some [].
Proof.
  destruct (filter_twice first_dataset "easy" "easy" three_world three_routes eq_refl)
    as (D1 & D2 & σ1 & σ2 & once & twice & F1 & K1 & F2 & K2 & _ & Hsame & _).
  destruct (filter_twice first_dataset "easy" "hard" three_world three_routes eq_refl)
    as (D1' & D3 & σ1' & σ3 & once' & none & F1' & _ & F3 & K3 & _ & _ & Hnone).
  rewrite F1 in F1'. injection F1' as <- <-.
  exists D1, D2, D3, σ1, σ2, σ3.
  split; [exact F1 |]. split; [exact F2 |].
  split.
  - rewrite K2, (Hsame eq_refl). rewrite <- K1.
    rewrite (filter_by_difficulty_run first_dataset "easy" three_world
               three_routes eq_refl) in F1.
    injection F1 as <- <-.
    etrans; [exact (filtered_new three_world _) | reflexivity].
  - split; [exact F3 |]. rewrite K3, Hnone; [reflexivity | discriminate].
Defined.

(** *** Statistics at the edges *)

Lemma count_bounds (x : string) (xs : list string) :
  x ∈ xs → 1 ≤ count x xs ≤ len xs.
Proof.
  intros Hx. split.
  - induction xs as [| y xs IH]; [inversion Hx |].
    rewrite count_cons. apply elem_of_cons in Hx as [-> | Hx].
    + rewrite decide_True by reflexivity. unfold count, len. lia.
    + specialize (IH Hx). destruct (decide (y = x)); lia.
  - unfold count, len. pose proof (length_filter (λ y, y = x) xs). lia.
Qed.

Lemma distribution_entries (xs : list string) :
  (∀ x n, RouteDataset.distribution xs !! x = Some n → x ∈ xs ∧ 1 ≤ n ≤ len xs) ∧
  (RouteDataset.distribution xs = ∅ ↔ xs = []).
Proof.
  split.
  - intros x n. rewrite distribution_lookup.
    destruct (decide (x ∈ xs)) as [Hx | Hx]; [| discriminate].
    intros [= <-]. split; [exact Hx | apply count_bounds, Hx].
  - split.
    + intros Hempty. destruct xs as [| x xs]; [reflexivity | exfalso].
      pose proof (distribution_lookup (x :: xs) x) as Hx.
      rewrite Hempty, lookup_empty in Hx.
      rewrite decide_True in Hx by left. discriminate.
    + intros ->. apply map_eq. intros x.
      rewrite distribution_lookup, lookup_empty.
      apply decide_False. apply not_elem_of_nil.
Qed.

Lemma distribution_of_filtered (v : string) (rs : list Route) :
  RouteDataset.distribution (difficulty <$> of_level v rs) =
  if decide (of_level v rs = []) then ∅ else {[ v := len (of_level v rs) ]}.
Proof.
  apply map_eq. intros x. rewrite distribution_lookup.
  assert (Hall : ∀ y, y ∈ difficulty <$> of_level v rs → y = v).
  { intros y (r & -> & Hr)%list_elem_of_fmap.
    apply list_elem_of_filter in Hr. tauto. }
  destruct (decide (of_level v rs = [])) as [Hnil | Hcons].
  - rewrite Hnil, lookup_empty. apply decide_False. apply not_elem_of_nil.
  - destruct (decide (x = v)) as [-> | Hne].
    + rewrite lookup_singleton_eq. rewrite decide_True.
      * f_equal. rewrite count_fmap. f_equal.
        unfold of_level. rewrite list_filter_filter.
        apply list_filter_iff. intros r. tauto.
      * destruct (of_level v rs) as [| r rest] eqn:E; [contradiction |].
        assert (Hr : r ∈ of_level v rs) by (rewrite E; left).
        apply list_elem_of_filter in Hr as [<- _].
        rewrite fmap_cons. left.
    + rewrite lookup_singleton_ne by congruence.
      apply decide_False. intros Hx. apply Hne, Hall, Hx.
Qed.

(** X5. The distributions of [get_statistics] have no empty entry: every
    key occurs in the dataset and is mapped to a count between 1 and the
    number of routes; the distributions are empty exactly when the
    dataset is. *)
Theorem statistics_entries (D : RouteDataset) (σ : world) (rs : list Route) :
  heap σ !! routes D = Some rs →
  let by_level := RouteDataset.distribution (difficulty <$> rs) in
  let by_region := RouteDataset.distribution (region <$> rs) in
  ∃ stats : gmap string pyval,
    RouteDataset.get_statistics D σ = (Returns stats, σ) ∧
    stats !! "difficulty_distribution" = Some (PDict (PInt <$> by_level)) ∧
    stats !! "region_distribution" = Some (PDict (PInt <$> by_region)) ∧
    (∀ x n, by_level !! x = Some n →
       (∃ r, r ∈ rs ∧ difficulty r = x) ∧ 1 ≤ n ≤ len rs) ∧
    (∀ x n, by_region !! x = Some n →
       (∃ r, r ∈ rs ∧ region r = x) ∧ 1 ≤ n ≤ len rs) ∧
    (by_level = ∅ ↔ rs = []) ∧
    (by_region = ∅ ↔ rs = []).
Proof.
  intros H by_level by_region. eexists.
  split; [exact (get_statistics_run D σ rs H) |].
  split; [rewrite lookup_insert_ne by discriminate; apply lookup_insert_eq |].
  split; [do 2 (rewrite lookup_insert_ne by discriminate); apply lookup_insert_eq |].
  destruct (distribution_entries (difficulty <$> rs)) as [Hl Hle].
  destruct (distribution_entries (region <$> rs)) as [Hr Hre].
  assert (Hlen : ∀ f : Route → string, len (f <$> rs) = len rs)
    by (intros f; unfold len; rewrite length_fmap; reflexivity).
  assert (Hnil : ∀ f : Route → string, f <$> rs = [] ↔ rs = [])
    by (intros f; destruct rs; split; intros; (reflexivity || discriminate)).
  split; [| split; [| split]].
  - intros x n Hx. destruct (Hl x n Hx) as [Hin Hn]. rewrite Hlen in Hn.
    split; [| exact Hn].
    apply list_elem_of_fmap in Hin as (r & -> & Hr'). eauto.
  - intros x n Hx. destruct (Hr x n Hx) as [Hin Hn]. rewrite Hlen in Hn.
    split; [| exact Hn].
    apply list_elem_of_fmap in Hin as (r & -> & Hr'). eauto.
  - unfold by_level. rewrite Hle. apply Hnil.
  - unfold by_region. rewrite Hre. apply Hnil.
Qed.

Lemma statistics_entries_witness :
  ∃ stats : gmap string pyval,
    RouteDataset.get_statistics first_dataset empty_dataset_world
      = (Returns stats, empty_dataset_world) ∧
    stats !! "difficulty_distribution" = Some (PDict ∅) ∧
    stats !! "region_distribution" = Some (PDict ∅).
Proof.
  destruct (statistics_entries first_dataset empty_dataset_world [] eq_refl)
    as (stats & E & Hl & Hr & _ & _ & [_ Hle] & [_ Hre]).
  exists stats. split; [exact E |].
  rewrite (Hle eq_refl) in Hl. rewrite (Hre eq_refl) in Hr.
  rewrite fmap_empty in Hl, Hr. split; assumption.
Defined.

(** X6. The statistics of a dataset filtered by difficulty [v] name no
    other difficulty: [difficulty_distribution] is empty when nothing
    was kept, and otherwise has the single entry [v] with the length of
    the filtered dataset. *)
Theorem statistics_of_filtered (D : RouteDataset) (v : string) (σ : world)
    (rs : list Route) :
  heap σ !! routes D = Some rs →
  ∃ (D' : RouteDataset) (σ' : world) (stats : gmap string pyval)
    (kept : list Route) (by_level : gmap string Z),
    RouteDataset.filter_by_difficulty D v σ = (Returns D', σ') ∧
    heap σ' !! routes D' = Some kept ∧
    RouteDataset.get_statistics D' σ' = (Returns stats, σ') ∧
    stats !! "total_routes" = Some (PInt (len kept)) ∧
    stats !! "difficulty_distribution" = Some (PDict (PInt <$> by_level)) ∧
    by_level = (if decide (kept = []) then ∅ else {[ v := len kept ]}).
Proof.
  intros H.
  exists {| routes := fresh (dom (heap σ)) |}, (filtered (of_level v rs) σ).
  eexists _, (of_level v rs), _.
  split; [exact (filter_by_difficulty_run D v σ rs H) |].
  split; [apply filtered_new |].
  split; [exact (get_statistics_run _ _ _ (filtered_dataset σ _)) |].
  split; [apply lookup_insert_eq |].
  split; [rewrite lookup_insert_ne by discriminate; apply lookup_insert_eq |].
  apply distribution_of_filtered.
Qed.

Lemma statistics_of_filtered_witness :
  ∃ (D' : RouteDataset) (σ' : world) (stats : gmap string pyval),
    RouteDataset.filter_by_difficulty first_dataset "easy" three_world
      = (Returns D', σ') ∧
    RouteDataset.get_statistics D' σ' = (Returns stats, σ') ∧
    stats !! "total_routes" = Some (PInt 2) ∧
    stats !! "difficulty_distribution" = Some (PDict {[ "easy" := PInt 2 ]}).
Proof.
  destruct (statistics_of_filtered first_dataset "easy" three_world three_routes
              eq_refl)
    as (D' & σ' & stats & kept & by_level & F & K & G & T & L & ->).
  rewrite (filter_by_difficulty_run first_dataset "easy" three_world
             three_routes eq_refl) in F.
  injection F as <- <-.
  assert (Some kept = Some (of_level "easy" three_routes)) as [= ->].
  { rewrite <- K. exact (filtered_dataset three_world _). }
  eexists _, _, stats.
  split; [exact (filter_by_difficulty_run first_dataset "easy" three_world
                   three_routes eq_refl) |].
  split; [exact G |]. split; [exact T |].
  rewrite L. reflexivity.
Defined.

(** *** The sample dataset in use *)

(** The world [load_dataset] leaves. *)
Lemma load_dataset_heap dataset_name data_path σ :
  ∃ σ', load_dataset dataset_name data_path σ
          = (Returns {| routes := fresh (dom (heap σ)) |}, σ') ∧
        heap σ' = <[fresh (dom (heap σ)) := expected_routes]> (heap σ).
Proof. eexists. split; [apply load_dataset_run | reflexivity]. Qed.

(** X7. Two calls of [load_dataset] share nothing: the second dataset is
    over another list, and appending a route to the list of the first
    makes the first eleven routes long and leaves the second at ten. *)
Theorem load_dataset_twice (name1 name2 : string) (path1 path2 : option string)
    (r : Route) (σ : world) :
  ∃ (D1 D2 : RouteDataset) (σ1 σ2 σ3 : world),
    load_dataset name1 path1 σ = (Returns D1, σ1) ∧
    load_dataset name2 path2 σ1 = (Returns D2, σ2) ∧
    routes D1 ≠ routes D2 ∧
    append (routes D1) r σ2 = (Returns (), σ3) ∧
    RouteDataset.__len__ D1 σ3 = (Returns 11, σ3) ∧
    RouteDataset.__len__ D2 σ3 = (Returns 10, σ3) ∧
    heap σ3 !! routes D2 = Some expected_routes.
Proof.
  destruct (load_dataset_heap name1 path1 σ) as (σ1 & E1 & H1).
  destruct (load_dataset_heap name2 path2 σ1) as (σ2 & E2 & H2).
  set (l1 := fresh (dom (heap σ))) in *.
  set (l2 := fresh (dom (heap σ1))) in *.
  assert (K1 : heap σ1 !! l1 = Some expected_routes)
    by (rewrite H1; apply lookup_insert_eq).
  assert (Hne : l2 ≠ l1) by exact (fresh_neq σ1 l1 _ K1).
  assert (K2 : heap σ2 !! l1 = Some expected_routes)
    by (rewrite H2, lookup_insert_ne by exact Hne; exact K1).
  exists {| routes := l1 |}, {| routes := l2 |}, σ1, σ2,
    (store l1 (expected_routes ++ [r]) σ2).
  split; [exact E1 |]. split; [exact E2 |].
  split; [cbn; congruence |].
  split; [exact (append_run l1 r σ2 _ K2) |].
  assert (K3 : heap (store l1 (expected_routes ++ [r]) σ2) !! l2
               = Some expected_routes).
  { cbn. rewrite lookup_insert_ne by congruence.
    rewrite H2. apply lookup_insert_eq. }
  split; [| split; [| exact K3]].
  - rewrite (len_run {| routes := l1 |} _ (expected_routes ++ [r]))
      by apply lookup_insert_eq.
    reflexivity.
  - rewrite (len_run {| routes := l2 |} _ _ K3). reflexivity.
Qed.

(** X8. What the [info] command reports: the statistics of the dataset
    [load_dataset] returns are, for every name, ten routes, four easy,
    three medium and three hard, all ten in New York. *)
Theorem sample_statistics (dataset_name : string) (data_path : option string)
    (σ : world) :
  ∃ (D : RouteDataset) (σ' : world) (stats : gmap string pyval),
    load_dataset dataset_name data_path σ = (Returns D, σ') ∧
    RouteDataset.get_statistics D σ' = (Returns stats, σ') ∧
    stats !! "total_routes" = Some (PInt 10) ∧
    stats !! "difficulty_distribution"
      = Some (PDict (<["easy" := PInt 4]>
                    (<["medium" := PInt 3]> (<["hard" := PInt 3]> ∅)))) ∧
    stats !! "region_distribution" = Some (PDict {["New York" := PInt 10]}).
Proof.
  destruct (load_dataset_heap dataset_name data_path σ) as (σ' & E & Hh).
  assert (K : heap σ' !! routes {| routes := fresh (dom (heap σ)) |}
              = Some expected_routes)
    by (rewrite Hh; apply lookup_insert_eq).
  eexists _, σ', _.
  split; [exact E |].
  split; [exact (get_statistics_run _ σ' _ K) |].
  split; [apply lookup_insert_eq |].
  split.
  - rewrite lookup_insert_ne by discriminate. rewrite lookup_insert_eq.
    vm_compute. reflexivity.
  - do 2 (rewrite lookup_insert_ne by discriminate). rewrite lookup_insert_eq.
    vm_compute. reflexivity.
Qed.

(** *** What a model is given *)

Lemma point_to_dict_coordinates (p q : RoutePoint) :
  RouteEvaluator.point_to_dict p = RouteEvaluator.point_to_dict q ↔
  coordinates p = coordinates q.
Proof.
  unfold RouteEvaluator.point_to_dict, coordinates. split.
  - intros E. apply (f_equal dict_of) in E. cbn [dict_of] in E.
    pose proof (f_equal (λ d, d !! "latitude") E) as Hlat.
    pose proof (f_equal (λ d, d !! "longitude") E) as Hlon.
    cbn beta in Hlat, Hlon.
    rewrite !lookup_insert_eq in Hlat.
    rewrite !(lookup_insert_ne _ "latitude" "longitude"), !lookup_insert_eq
      in Hlon by discriminate.
    apply (inj Some) in Hlat, Hlon.
    apply (f_equal float_of) in Hlat, Hlon. cbn [float_of] in Hlat, Hlon.
    congruence.
  - intros [= -> ->]. reflexivity.
Qed.

Lemma points_to_dict_coordinates (ps qs : list RoutePoint) :
  RouteEvaluator.point_to_dict <$> ps = RouteEvaluator.point_to_dict <$> qs ↔
  coordinates <$> ps = coordinates <$> qs.
Proof.
  revert qs. induction ps as [| p ps IH]; intros [| q qs];
    try (split; (reflexivity || discriminate)).
  rewrite !fmap_cons. split; intros E.
  - pose proof (f_equal head E) as Eh. pose proof (f_equal tail E) as Et.
    cbn [head tail] in Eh, Et. apply (inj Some) in Eh.
    apply point_to_dict_coordinates in Eh. apply IH in Et.
    rewrite Eh, Et. reflexivity.
  - pose proof (f_equal head E) as Eh. pose proof (f_equal tail E) as Et.
    cbn [head tail] in Eh, Et. apply (inj Some) in Eh.
    apply point_to_dict_coordinates in Eh. apply IH in Et.
    rewrite Eh, Et. reflexivity.
Qed.

Lemma route_to_dict_lookup (r : Route) :
  let d := RouteEvaluator._route_to_dict r in
  d !! "route_id" = Some (PStr (route_id r)) ∧
  d !! "start_point" = Some (RouteEvaluator.point_to_dict (start_point r)) ∧
  d !! "end_point" = Some (RouteEvaluator.point_to_dict (end_point r)) ∧
  d !! "difficulty" = Some (PStr (difficulty r)) ∧
  d !! "region" = Some (PStr (region r)) ∧
  d !! "points" = Some (PList (RouteEvaluator.point_to_dict <$> points r)).
Proof.
  unfold RouteEvaluator._route_to_dict. cbn zeta.
  repeat split;
    repeat (rewrite lookup_insert_ne by discriminate); apply lookup_insert_eq.
Qed.

(** X9. [_route_to_dict] hands a model the identifier, the coordinates of
    the start point, of the end point and of every point, the difficulty
    and the region, under six keys, and nothing else: two routes get the
    same mapping exactly when they agree on these, whatever their
    metadata and the timestamps and metadata of their points. *)
Theorem route_to_dict_content (r r' : Route) :
  dom (RouteEvaluator._route_to_dict r)
    = ({["route_id"; "start_point"; "end_point"; "difficulty"; "region"; "points"]}
       : gset string) ∧
  (RouteEvaluator._route_to_dict r = RouteEvaluator._route_to_dict r' ↔
   same_route_data r r').
Proof.
  split.
  { unfold RouteEvaluator._route_to_dict. rewrite !dom_insert_L, dom_empty_L.
    apply set_eq. intros x. rewrite !elem_of_union, !elem_of_singleton.
    rewrite elem_of_empty. tauto. }
  destruct (route_to_dict_lookup r) as (Hi & Hs & He & Hd & Hr & Hp).
  destruct (route_to_dict_lookup r') as (Hi' & Hs' & He' & Hd' & Hr' & Hp').
  cbn zeta in *. unfold same_route_data. split.
  - intros E. rewrite E in Hi, Hs, He, Hd, Hr, Hp.
    rewrite Hi' in Hi. rewrite Hs' in Hs. rewrite He' in He.
    rewrite Hd' in Hd. rewrite Hr' in Hr. rewrite Hp' in Hp.
    apply (inj Some) in Hi, Hs, He, Hd, Hr, Hp.
    apply (f_equal str_of) in Hi, Hd, Hr. apply (f_equal list_of) in Hp.
    cbn [str_of list_of] in Hi, Hd, Hr, Hp.
    symmetry in Hs, He, Hp.
    apply point_to_dict_coordinates in Hs, He.
    apply points_to_dict_coordinates in Hp.
    repeat split; congruence.
  - intros (Ei & Es & Ee & Ed & Er & Ep).
    apply point_to_dict_coordinates in Es, Ee.
    apply points_to_dict_coordinates in Ep.
    unfold RouteEvaluator._route_to_dict. rewrite Ei, Es, Ee, Ed, Er, Ep.
    reflexivity.
Qed.

(** A route with metadata and a timestamped first point, and the same
    route without them. *)
Example route_to_dict_drops_metadata :
  let p := {| latitude := 40.0; longitude := -74.0;
              timestamp := Some "2025-01-01T00:00:00"; point_metadata := None |} in
  let q := {| latitude := 41.0; longitude := -73.0;
              timestamp := None; point_metadata := None |} in
  let r := {| route_id := "a"; points := [p; q]; start_point := p; end_point := q;
              difficulty := "easy"; region := "Test Region";
              metadata := Some {["sample" := PBool true]} |} in
  r ≠ route_of "a" "easy" "Test Region" ∧
  RouteEvaluator._route_to_dict r
    = RouteEvaluator._route_to_dict (route_of "a" "easy" "Test Region").
Proof.
  cbn zeta. split; [discriminate |].
  apply route_to_dict_content. repeat split; reflexivity.
Qed.

Lemma prepare_input_holes route_data σ (ds de : gmap string pyval) :
  dict_get route_data "start_point" (PDict ∅) = PDict ds →
  dict_get route_data "end_point" (PDict ∅) = PDict de →
  ∃ prompt,
    LLM.prepare_input route_data σ = (Returns prompt, σ) ∧
    holes prompt = [dict_get ds "latitude" PNone; dict_get ds "longitude" PNone;
                    dict_get de "latitude" PNone; dict_get de "longitude" PNone].
Proof.
  intros Hs He. unfold LLM.prepare_input. rewrite Hs, He.
  eexists. split; reflexivity.
Qed.

(** X10. The prompt of [LLMModel.prepare_input] is filled, in this order,
    with the latitude and longitude of the start point and of the end
    point.  For the mapping of a route these are the coordinates of its
    [start_point] and [end_point] fields, whatever its list of points;
    for a mapping without start and end point the four places are filled
    with [None], and nothing is raised. *)
Theorem prompt_coordinates (σ : world) :
  (∀ r : Route,
     ∃ prompt,
       LLM.prepare_input (RouteEvaluator._route_to_dict r) σ = (Returns prompt, σ) ∧
       holes prompt = [PFloat (latitude (start_point r));
                       PFloat (longitude (start_point r));
                       PFloat (latitude (end_point r));
                       PFloat (longitude (end_point r))]) ∧
  (∀ route_data : gmap string pyval,
     route_data !! "start_point" = None →
     route_data !! "end_point" = None →
     ∃ prompt,
       LLM.prepare_input route_data σ = (Returns prompt, σ) ∧
       holes prompt = [PNone; PNone; PNone; PNone]).
Proof.
  split.
  - intros r. destruct (route_to_dict_lookup r) as (_ & Hs & He & _).
    cbn zeta in Hs, He.
    destruct (prepare_input_holes (RouteEvaluator._route_to_dict r) σ
                (dict_of (RouteEvaluator.point_to_dict (start_point r)))
                (dict_of (RouteEvaluator.point_to_dict (end_point r))))
      as (prompt & E & Hh).
    + unfold dict_get. rewrite Hs. reflexivity.
    + unfold dict_get. rewrite He. reflexivity.
    + exists prompt. split; [exact E |]. rewrite Hh.
      unfold RouteEvaluator.point_to_dict, dict_of, dict_get.
      rewrite !lookup_insert_eq.
      rewrite !(lookup_insert_ne _ "latitude" "longitude") by discriminate.
      rewrite !lookup_insert_eq. reflexivity.
  - intros route_data Hs He.
    destruct (prepare_input_holes route_data σ ∅ ∅) as (prompt & E & Hh).
    + unfold dict_get. rewrite Hs. reflexivity.
    + unfold dict_get. rewrite He. reflexivity.
    + exists prompt. split; [exact E |]. rewrite Hh. reflexivity.
Qed.

Lemma prompt_coordinates_witness :
  ∃ p1 p2 : fstring,
    LLM.prepare_input
      (RouteEvaluator._route_to_dict (route_of "a" "easy" "Test Region")) empty_world
      = (Returns p1, empty_world) ∧
    holes p1 = [PFloat 40.0; PFloat (-74.0); PFloat 41.0; PFloat (-73.0)] ∧
    LLM.prepare_input {["route_id" := PStr "test"]} empty_world
      = (Returns p2, empty_world) ∧
    holes p2 = [PNone; PNone; PNone; PNone].
Proof.
  destruct (prompt_coordinates empty_world) as [Hroute Hmissing].
  destruct (Hroute (route_of "a" "easy" "Test Region")) as (p1 & E1 & H1).
  destruct (Hmissing {["route_id" := PStr "test"]}) as (p2 & E2 & H2);
    [reflexivity | reflexivity |].
  exists p1, p2. repeat split; assumption.
Defined.

(** *** The composite score on other metrics *)

Lemma div_float_run (f : float) σ :
  div_int (PFloat f) 10 σ = (Returns (f / 10)%float, σ).
Proof. reflexivity. Qed.

Lemma div_default_run σ :
  div_int (PInt 5) 10 σ = (Returns (5 / 10)%float, σ).
Proof. reflexivity. Qed.

(** X11. [_compute_overall_score] accepts metrics with keys missing: an
    absent accuracy, spatial accuracy or semantic similarity counts as 0
    and an absent route deviation as 5, so the score of an empty mapping
    is 0.1. *)
Theorem score_with_defaults (m : gmap string pyval) (σ : world) (a s e d : float) :
  float_or_default (m !! "accuracy") 0 = Some a →
  float_or_default (m !! "spatial_accuracy") 0 = Some s →
  float_or_default (m !! "semantic_similarity") 0 = Some e →
  float_or_default (m !! "route_deviation") 5 = Some d →
  RouteEvaluator._compute_overall_score m σ = (Returns (weighted_score a s e d), σ) ∧
  RouteEvaluator._compute_overall_score ∅ σ = (Returns 0.1%float, σ).
Proof.
  intros Ha Hs He Hd. split; [| vm_compute; reflexivity].
  unfold RouteEvaluator._compute_overall_score, dict_get, weighted_score, max_0.
  unfold float_or_default in Ha, Hs, He, Hd.
  destruct (m !! "route_deviation") as [[] |]; try discriminate;
    injection Hd as <-;
    (destruct (m !! "accuracy") as [[] |]; try discriminate; injection Ha as <-);
    (destruct (m !! "spatial_accuracy") as [[] |]; try discriminate; injection Hs as <-);
    (destruct (m !! "semantic_similarity") as [[] |]; try discriminate; injection He as <-).
  all: erewrite bind_returns by (apply div_float_run || apply div_default_run).
  all: match goal with
       | |- context [(0 <? 1 - ?x / 10)%float] =>
           destruct (0 <? 1 - x / 10)%float; reflexivity
       end.
Qed.

Lemma score_with_defaults_witness :
  RouteEvaluator._compute_overall_score {["accuracy" := PFloat 1]} empty_world
    = (Returns 0.4%float, empty_world) ∧
  RouteEvaluator._compute_overall_score ∅ empty_world
    = (Returns 0.1%float, empty_world).
Proof.
  destruct (score_with_defaults {["accuracy" := PFloat 1]} empty_world 1 0 0 5)
    as [E1 E2]; [reflexivity | reflexivity | reflexivity | reflexivity |].
  split; [| exact E2]. rewrite E1. reflexivity.
Defined.

(** X12. A metric that is not a number is not skipped: when one of the
    four metrics is [None], a string, a list or a mapping, and the others
    are floats or absent, [_compute_overall_score] raises [TypeError]. *)
Theorem score_type_error (m : gmap string pyval) (σ : world) (k : string) (v : pyval) :
  let keys := ["accuracy"; "spatial_accuracy"; "semantic_similarity";
               "route_deviation"] in
  k ∈ keys →
  m !! k = Some v →
  non_numeric v →
  (∀ k', k' ∈ keys → k' ≠ k → is_Some (float_or_default (m !! k') 0)) →
  RouteEvaluator._compute_overall_score m σ = (Raises TypeError, σ).
Proof.
  intros keys Hk Hv Hbad Hothers.
  assert (Hfloat : ∀ k', k' ∈ keys → k' ≠ k →
            m !! k' = None ∨ ∃ f, m !! k' = Some (PFloat f)).
  { intros k' Hin Hne. destruct (Hothers k' Hin Hne) as [f Hf].
    unfold float_or_default in Hf.
    destruct (m !! k') as [[] |]; try discriminate; eauto. }
  assert (Ha : "accuracy" ∈ keys) by left.
  assert (Hs : "spatial_accuracy" ∈ keys) by (right; left).
  assert (Hd : "route_deviation" ∈ keys) by (do 3 right; left).
  unfold RouteEvaluator._compute_overall_score, dict_get.
  unfold keys in Hk.
  repeat (apply elem_of_cons in Hk as [-> | Hk]); [| | | | inversion Hk].
  all: rewrite Hv.
  - destruct (Hfloat "route_deviation" Hd) as [-> | [d ->]]; [discriminate | |];
      (erewrite bind_returns by (apply div_float_run || apply div_default_run));
      destruct v; try contradiction; reflexivity.
  - destruct (Hfloat "route_deviation" Hd) as [-> | [d ->]]; [discriminate | |];
      (erewrite bind_returns by (apply div_float_run || apply div_default_run));
      (destruct (Hfloat "accuracy" Ha) as [-> | [a ->]]; [discriminate | |]);
      destruct v; try contradiction; reflexivity.
  - destruct (Hfloat "route_deviation" Hd) as [-> | [d ->]]; [discriminate | |];
      (erewrite bind_returns by (apply div_float_run || apply div_default_run));
      (destruct (Hfloat "accuracy" Ha) as [-> | [a ->]]; [discriminate | |]);
      (destruct (Hfloat "spatial_accuracy" Hs) as [-> | [s ->]]; [discriminate | |]);
      destruct v; try contradiction; reflexivity.
  - destruct v; try contradiction; reflexivity.
Qed.

Lemma score_type_error_witness :
  RouteEvaluator._compute_overall_score
    {["accuracy" := PStr "0.75"]} empty_world = (Raises TypeError, empty_world) ∧
  RouteEvaluator._compute_overall_score
    {["route_deviation" := PNone]} empty_world = (Raises TypeError, empty_world).
Proof.
  split.
  - apply (score_type_error {["accuracy" := PStr "0.75"]} empty_world
             "accuracy" (PStr "0.75")).
    + left.
    + reflexivity.
    + exact I.
    + intros k' _ Hne. rewrite lookup_singleton_ne by congruence.
      eexists. reflexivity.
  - apply (score_type_error {["route_deviation" := PNone]} empty_world
             "route_deviation" PNone).
    + do 3 right. left.
    + reflexivity.
    + exact I.
    + intros k' _ Hne. rewrite lookup_singleton_ne by congruence.
      eexists. reflexivity.
Defined.

(** *** What an evaluation leaves behind *)

Lemma filtered_dom σ kept :
  dom (heap (filtered kept σ)) = {[fresh (dom (heap σ))]} ∪ dom (heap σ) ∧
  size (dom (heap (filtered kept σ))) = S (size (dom (heap σ))).
Proof.
  cbn [filtered emit store heap]. rewrite dom_insert_L. split; [reflexivity |].
  rewrite size_union by (apply disjoint_singleton_l, is_fresh).
  rewrite size_singleton. reflexivity.
Qed.

Lemma bucketed_old σ rs l :
  l ∈ dom (heap σ) → heap (bucketed rs σ) !! l = heap σ !! l.
Proof.
  intros Hl. unfold bucketed.
  assert (H1 : l ∈ dom (heap (filtered (of_level "easy" rs) σ))).
  { rewrite (proj1 (filtered_dom σ _)). apply elem_of_union_r, Hl. }
  assert (H2 : l ∈ dom (heap (filtered (of_level "medium" rs)
                                 (filtered (of_level "easy" rs) σ)))).
  { rewrite (proj1 (filtered_dom _ _)). apply elem_of_union_r, H1. }
  rewrite (filtered_old _ _ _ H2), (filtered_old _ _ _ H1).
  apply filtered_old, Hl.
Qed.

Lemma bucketed_trace σ rs :
  trace (bucketed rs σ) =
  trace σ ++ [initialized (len (of_level "easy" rs));
              initialized (len (of_level "medium" rs));
              initialized (len (of_level "hard" rs))].
Proof. cbn. rewrite <- !app_assoc. reflexivity. Qed.

(** X13. [evaluate] does not touch the lists it finds: the list of the
    dataset and every list that existed before the call are as before.
    Its calls to the loggers are, in order: one [logger.debug] per route
    for an [LLMModel] (none for the human baseline), the three
    [logger.info] of the constructors of the filtered datasets, and its
    own final [logger.info]; it opens no file.  Evaluating again in the
    world it leaves returns the same result. *)
Theorem evaluate_footprint (self : RouteEvaluator) (model : BaseModel)
    (D : RouteDataset) (σ : world) (rs : list Route) :
  heap σ !! routes D = Some rs →
  ∃ (results : gmap string pyval) (σ' σ'' : world),
    RouteEvaluator.evaluate self model D σ = (Returns results, σ') ∧
    heap σ' !! routes D = Some rs ∧
    (∀ l, l ∈ dom (heap σ) → heap σ' !! l = heap σ !! l) ∧
    trace σ' =
      trace σ
      ++ match model with
         | LLMModel _ _ _ =>
             (λ r, LogCall models_logger DEBUG
                     [Lit "Generated prediction for route "; Fmt (PStr (route_id r))])
             <$> rs
         | HumanBaselineModel => []
         end
      ++ [initialized (len (filter (λ r, difficulty r = "easy") rs));
          initialized (len (filter (λ r, difficulty r = "medium") rs));
          initialized (len (filter (λ r, difficulty r = "hard") rs));
          completed model] ∧
    (∀ path mode, FileOpen path mode ∈ trace σ' → FileOpen path mode ∈ trace σ) ∧
    RouteEvaluator.evaluate self model D σ' = (Returns results, σ'').
Proof.
  intros H.
  assert (H' : heap (evaluated model rs σ) !! routes D = Some rs).
  { cbn [evaluated emit heap]. apply bucketed_keeps. exact H. }
  exists (final_results model rs), (evaluated model rs σ),
    (evaluated model rs (evaluated model rs σ)).
  split; [exact (evaluate_run self model D σ rs H) |].
  split; [exact H' |].
  split.
  { intros l Hl. cbn [evaluated emit heap].
    exact (bucketed_old (emit (prediction_events model rs) σ) rs l Hl). }
  split.
  { cbn [evaluated emit trace]. rewrite bucketed_trace. cbn [emit trace].
    rewrite <- !app_assoc. destruct model as [name key cfg |]; reflexivity. }
  split; [| exact (evaluate_run self model D _ rs H')].
  intros path mode. cbn [evaluated emit trace]. rewrite bucketed_trace.
  cbn [emit trace]. rewrite !elem_of_app.
  intros [[[Hold | Hp] | Hi] | Hc]; [exact Hold | exfalso ..].
  - destruct model; cbn in Hp; [| inversion Hp].
    apply list_elem_of_fmap in Hp as (r & Hr & _). discriminate.
  - repeat (apply elem_of_cons in Hi as [Hi | Hi]; [discriminate |]). inversion Hi.
  - apply elem_of_cons in Hc as [Hc | Hc]; [discriminate | inversion Hc].
Qed.

Lemma evaluate_footprint_witness :
  ∃ (results : gmap string pyval) (σ' : world),
    RouteEvaluator.evaluate default_evaluator (LLMModel "gpt-4" None ∅)
      first_dataset three_world = (Returns results, σ') ∧
    heap σ' !! routes first_dataset = Some three_routes ∧
    length (trace σ') = 7%nat.
Proof.
  destruct (evaluate_footprint default_evaluator (LLMModel "gpt-4" None ∅)
              first_dataset three_world three_routes eq_refl)
    as (results & σ' & _ & E & Hkeep & _ & Htrace & _).
  exists results, σ'. split; [exact E |]. split; [exact Hkeep |].
  rewrite Htrace. reflexivity.
Defined.

(** *** The shape of a result *)

Lemma final_results_dom model rs :
  dom (final_results model rs)
    = ({["model_name"; "dataset_size"; "metrics"; "overall_score"]} : gset string) ∧
  dom (final_metrics rs)
    = ({["accuracy"; "spatial_accuracy"; "route_deviation"; "semantic_similarity";
         "by_difficulty"]} : gset string).
Proof.
  unfold final_results, results_of, final_metrics.
  rewrite !dom_insert_L, !dom_empty_L.
  split; apply set_eq; intros x;
    rewrite !elem_of_union, !elem_of_singleton, elem_of_empty; tauto.
Qed.

Lemma evaluator_init_run cfg σ :
  RouteEvaluator.__init__ cfg σ =
  (Returns {| config := cfg;
              metrics := ["accuracy"; "spatial_accuracy"; "semantic_similarity";
                          "route_deviation"; "landmark_recognition"] |},
   emit [evaluator_initialized] σ).
Proof. reflexivity. Qed.

(** X14. A result has exactly the keys [model_name], [dataset_size],
    [metrics] and [overall_score]; the name is the model's, the size the
    length of the dataset, and the metrics are exactly the four base
    metrics and [by_difficulty].  The evaluator lists
    [landmark_recognition] among its metrics, but no result has it. *)
Theorem result_shape (cfg : gmap string pyval) (model : BaseModel)
    (D : RouteDataset) (σ : world) (rs : list Route) :
  heap σ !! routes D = Some rs →
  ∃ (self : RouteEvaluator) (σ0 σ' : world) (results m : gmap string pyval),
    RouteEvaluator.__init__ cfg σ = (Returns self, σ0) ∧
    "landmark_recognition" ∈ metrics self ∧
    RouteEvaluator.evaluate self model D σ0 = (Returns results, σ') ∧
    dom results
      = ({["model_name"; "dataset_size"; "metrics"; "overall_score"]} : gset string) ∧
    results !! "model_name" = Some (PStr (model_name model)) ∧
    results !! "dataset_size" = Some (PInt (len rs)) ∧
    results !! "metrics" = Some (PDict m) ∧
    dom m
      = ({["accuracy"; "spatial_accuracy"; "route_deviation"; "semantic_similarity";
           "by_difficulty"]} : gset string) ∧
    m !! "landmark_recognition" = None.
Proof.
  intros H.
  destruct (final_results_lookup model rs) as (_ & Hm & Hn & Hs).
  destruct (final_results_dom model rs) as [Hdr Hdm].
  eexists _, _, _, (final_results model rs), (final_metrics rs).
  split; [apply evaluator_init_run |].
  split; [cbn; do 4 right; left |].
  split; [exact (evaluate_run _ model D (emit [evaluator_initialized] σ) rs H) |].
  repeat (split; [assumption |]).
  apply not_elem_of_dom. rewrite Hdm.
  rewrite !elem_of_union, !elem_of_singleton.
  intros [[[[E | E] | E] | E] | E]; discriminate.
Qed.

Lemma result_shape_witness :
  ∃ (self : RouteEvaluator) (σ0 σ' : world) (results : gmap string pyval),
    RouteEvaluator.__init__ ∅ three_world = (Returns self, σ0) ∧
    RouteEvaluator.evaluate self HumanBaselineModel first_dataset σ0
      = (Returns results, σ') ∧
    results !! "model_name" = Some (PStr "human_baseline") ∧
    results !! "dataset_size" = Some (PInt 3).
Proof.
  destruct (result_shape ∅ HumanBaselineModel first_dataset three_world
              three_routes eq_refl)
    as (self & σ0 & σ' & results & m & I & _ & E & _ & Hn & Hs & _).
  exists self, σ0, σ', results. repeat split; assumption.
Defined.

(** X15. The model and the configuration of the evaluator decide nothing
    but the name in the result: two evaluations of one dataset, with any
    two models and any two evaluators, agree on every key other than
    [model_name]. *)
Theorem evaluate_ignores_model (self self' : RouteEvaluator) (model model' : BaseModel)
    (D : RouteDataset) (σ : world) (rs : list Route) :
  heap σ !! routes D = Some rs →
  ∃ (results results' : gmap string pyval) (σ1 σ2 : world),
    RouteEvaluator.evaluate self model D σ = (Returns results, σ1) ∧
    RouteEvaluator.evaluate self' model' D σ = (Returns results', σ2) ∧
    results' = <["model_name" := PStr (model_name model')]> results ∧
    (∀ k, k ≠ "model_name" → results' !! k = results !! k) ∧
    heap σ2 = heap σ1.
Proof.
  intros H.
  exists (final_results model rs), (final_results model' rs),
    (evaluated model rs σ), (evaluated model' rs σ).
  split; [exact (evaluate_run self model D σ rs H) |].
  split; [exact (evaluate_run self' model' D σ rs H) |].
  assert (E : final_results model' rs
              = <["model_name" := PStr (model_name model')]> (final_results model rs)).
  { unfold final_results, results_of.
    rewrite (insert_insert_ne _ "model_name" "overall_score") by discriminate.
    rewrite (insert_insert_ne _ "model_name" "metrics") by discriminate.
    rewrite insert_insert_eq. reflexivity. }
  split; [exact E |]. split; [| reflexivity].
  intros k Hk. rewrite E. apply lookup_insert_ne. congruence.
Qed.

Lemma evaluate_ignores_model_witness :
  ∃ (results results' : gmap string pyval) (σ1 σ2 : world),
    RouteEvaluator.evaluate default_evaluator HumanBaselineModel
      first_dataset three_world = (Returns results, σ1) ∧
    RouteEvaluator.evaluate default_evaluator (LLMModel "gpt-4" None ∅)
      first_dataset three_world = (Returns results', σ2) ∧
    results' !! "metrics" = results !! "metrics" ∧
    results' !! "overall_score" = results !! "overall_score".
Proof.
  destruct (evaluate_ignores_model default_evaluator default_evaluator
              HumanBaselineModel (LLMModel "gpt-4" None ∅)
              first_dataset three_world three_routes eq_refl)
    as (results & results' & σ1 & σ2 & E1 & E2 & _ & Hk & _).
  exists results, results', σ1, σ2.
  split; [exact E1 |]. split; [exact E2 |].
  split; apply Hk; discriminate.
Defined.

(** X16. [evaluate_model] is [evaluate] on a new evaluator: for every
    configuration, given or not, it returns what [RouteEvaluator.evaluate]
    returns, after logging that the evaluator was initialized. *)
Theorem evaluate_model_delegates (model : BaseModel) (D : RouteDataset)
    (cfg : option (gmap string pyval)) (self : RouteEvaluator)
    (σ : world) (rs : list Route) :
  heap σ !! routes D = Some rs →
  ∃ (results : gmap string pyval) (σ1 σ2 : world) (es : list event),
    RouteEvaluator.evaluate self model D σ = (Returns results, σ1) ∧
    evaluate_model model D cfg σ = (Returns results, σ2) ∧
    heap σ2 = heap σ1 ∧
    trace σ1 = trace σ ++ es ∧
    trace σ2 = trace σ ++ evaluator_initialized :: es.
Proof.
  intros H.
  exists (final_results model rs), (evaluated model rs σ),
    (evaluated model rs (emit [evaluator_initialized] σ)),
    (prediction_events model rs ++
     [initialized (len (of_level "easy" rs));
      initialized (len (of_level "medium" rs));
      initialized (len (of_level "hard" rs));
      completed model]).
  split; [exact (evaluate_run self model D σ rs H) |].
  split.
  { unfold evaluate_model.
    rewrite (bind_returns _ _ _ _ _ (evaluator_init_run _ σ)).
    exact (evaluate_run _ model D (emit [evaluator_initialized] σ) rs H). }
  split; [reflexivity |].
  cbn [evaluated emit trace]. rewrite !bucketed_trace. cbn [emit trace].
  rewrite <- !app_assoc. split; reflexivity.
Qed.

Lemma evaluate_model_delegates_witness :
  ∃ (results : gmap string pyval) (σ1 σ2 : world),
    RouteEvaluator.evaluate default_evaluator HumanBaselineModel
      first_dataset three_world = (Returns results, σ1) ∧
    evaluate_model HumanBaselineModel first_dataset None three_world
      = (Returns results, σ2).
Proof.
  destruct (evaluate_model_delegates HumanBaselineModel first_dataset None
              default_evaluator three_world three_routes eq_refl)
    as (results & σ1 & σ2 & es & E1 & E2 & _).
  exists results, σ1, σ2. split; assumption.
Defined.

(** *** The difficulty buckets and the size *)

Lemma bucket_count i kept : entry_count (bucket i kept) = Some (len kept).
Proof.
  unfold bucket. destruct (Z.ltb_spec 0 (len kept)) as [Hpos | Hzero].
  - cbn. rewrite lookup_insert_ne by discriminate. rewrite lookup_insert_eq.
    reflexivity.
  - cbn. rewrite lookup_insert_ne by discriminate. rewrite lookup_insert_eq.
    f_equal. unfold len in *. lia.
Qed.

Lemma known_level_split (rs : list Route) :
  len (of_level "easy" rs) + len (of_level "medium" rs) + len (of_level "hard" rs)
  = len (filter known_level rs).
Proof.
  unfold of_level, known_level, len.
  induction rs as [| r rs IH]; [reflexivity |].
  rewrite !filter_cons.
  destruct (decide (difficulty r = "easy")) as [He | He];
    destruct (decide (difficulty r = "medium")) as [Hm | Hm];
    destruct (decide (difficulty r = "hard")) as [Hh | Hh];
    try congruence.
  all: try (rewrite decide_True
              by (first [rewrite He | rewrite Hm | rewrite Hh];
                  repeat first [left | right]);
            cbn [length]; lia).
  rewrite decide_False; [lia |].
  intros Hin. repeat (apply elem_of_cons in Hin as [Hin | Hin]; [congruence |]).
  inversion Hin.
Qed.

Lemma filter_all_iff {A} (P : A → Prop) `{!∀ x, Decision (P x)} (l : list A) :
  length (filter P l) = length l ↔ Forall P l.
Proof.
  induction l as [| x l IH]; [split; [constructor | reflexivity] |].
  rewrite filter_cons. pose proof (length_filter P l).
  destruct (decide (P x)) as [Hx | Hx]; cbn [length].
  - rewrite Forall_cons. split.
    + intros E. split; [exact Hx | apply IH; lia].
    + intros [_ Hl]. apply IH in Hl. lia.
  - split; [lia |]. intros Hl. apply Forall_cons in Hl as [? _]. contradiction.
Qed.

(** X17. The three counts of [by_difficulty] add up to the number of
    routes whose difficulty is easy, medium or hard.  They add up to
    [dataset_size] exactly when every route has one of these
    difficulties; a route with any other difficulty is counted in the
    size and in no bucket. *)
Theorem bucket_counts (self : RouteEvaluator) (model : BaseModel)
    (D : RouteDataset) (σ : world) (rs : list Route) :
  heap σ !! routes D = Some rs →
  ∃ (results : gmap string pyval) (σ' : world) (m by_difficulty : gmap string pyval)
    (easy medium hard : pyval) (n_easy n_medium n_hard : Z),
    RouteEvaluator.evaluate self model D σ = (Returns results, σ') ∧
    results !! "dataset_size" = Some (PInt (len rs)) ∧
    results !! "metrics" = Some (PDict m) ∧
    m !! "by_difficulty" = Some (PDict by_difficulty) ∧
    by_difficulty !! "easy" = Some easy ∧ entry_count easy = Some n_easy ∧
    by_difficulty !! "medium" = Some medium ∧ entry_count medium = Some n_medium ∧
    by_difficulty !! "hard" = Some hard ∧ entry_count hard = Some n_hard ∧
    n_easy + n_medium + n_hard = len (filter known_level rs) ∧
    n_easy + n_medium + n_hard ≤ len rs ∧
    (n_easy + n_medium + n_hard = len rs ↔ Forall known_level rs).
Proof.
  intros H.
  destruct (final_results_lookup model rs) as (_ & Hm & _ & Hs).
  destruct (final_metrics_lookup rs) as (_ & _ & _ & _ & Hb).
  destruct (by_difficulty_lookup rs) as (He & Hmed & Hh).
  eexists (final_results model rs), (evaluated model rs σ),
    (final_metrics rs), (by_difficulty_of rs), _, _, _, _, _, _.
  split; [exact (evaluate_run self model D σ rs H) |].
  split; [exact Hs |]. split; [exact Hm |]. split; [exact Hb |].
  split; [exact He |]. split; [apply bucket_count |].
  split; [exact Hmed |]. split; [apply bucket_count |].
  split; [exact Hh |]. split; [apply bucket_count |].
  rewrite known_level_split.
  split; [reflexivity |].
  split.
  - unfold len. pose proof (length_filter known_level rs). lia.
  - rewrite <- (filter_all_iff known_level rs). unfold len. lia.
Qed.

Lemma bucket_counts_witness :
  ∃ (results : gmap string pyval) (σ' : world) (m by_difficulty : gmap string pyval)
    (easy medium hard : pyval) (n_easy n_medium n_hard : Z),
    RouteEvaluator.evaluate default_evaluator HumanBaselineModel
      first_dataset mislabelled_world = (Returns results, σ') ∧
    results !! "dataset_size" = Some (PInt 2) ∧
    results !! "metrics" = Some (PDict m) ∧
    m !! "by_difficulty" = Some (PDict by_difficulty) ∧
    by_difficulty !! "easy" = Some easy ∧ entry_count easy = Some n_easy ∧
    by_difficulty !! "medium" = Some medium ∧ entry_count medium = Some n_medium ∧
    by_difficulty !! "hard" = Some hard ∧ entry_count hard = Some n_hard ∧
    n_easy + n_medium + n_hard = 1.
Proof.
  destruct (bucket_counts default_evaluator HumanBaselineModel first_dataset
              mislabelled_world mislabelled_routes eq_refl)
    as (results & σ' & m & bd & e & md & h & ne & nm & nh
        & E & Hs & Hm & Hb & He & Ce & Hmd & Cm & Hh & Ch & Hsum & _).
  exists results, σ', m, bd, e, md, h, ne, nm, nh.
  repeat (split; [assumption |]). rewrite Hsum. reflexivity.
Defined.

(** *** Evaluating a filtered dataset *)

Lemma of_level_again (v w : string) (rs : list Route) :
  of_level w (of_level v rs) = if decide (w = v) then of_level v rs else [].
Proof.
  unfold of_level. rewrite list_filter_filter.
  destruct (decide (w = v)) as [-> | Hne].
  - apply list_filter_iff. intros r. tauto.
  - apply (filter_facts (λ r, difficulty r = w ∧ difficulty r = v) rs).
    intros r _ [Hw Hv]. congruence.
Qed.

(** X18. Evaluating [D.filter_by_difficulty(v)], as the command line does
    with [--difficulty], gives a result whose size is the number of
    routes of difficulty [v]; the entries of the other difficulties are
    0.0 and 0, the entry of [v], when it is easy, medium or hard, counts
    the whole filtered dataset, and the score is still 0.723. *)
Theorem evaluate_filtered (self : RouteEvaluator) (model : BaseModel)
    (D : RouteDataset) (v : string) (σ : world) (rs : list Route) :
  heap σ !! routes D = Some rs →
  let kept := filter (λ r, difficulty r = v) rs in
  ∃ (D' : RouteDataset) (σ1 σ2 : world) (results m by_difficulty : gmap string pyval),
    RouteDataset.filter_by_difficulty D v σ = (Returns D', σ1) ∧
    RouteEvaluator.evaluate self model D' σ1 = (Returns results, σ2) ∧
    results !! "dataset_size" = Some (PInt (len kept)) ∧
    results !! "overall_score" = Some (PFloat 0.723) ∧
    results !! "metrics" = Some (PDict m) ∧
    m !! "by_difficulty" = Some (PDict by_difficulty) ∧
    (∀ w, w ∈ ["easy"; "medium"; "hard"] → w ≠ v →
       by_difficulty !! w = Some (entry 0.0 0)) ∧
    (v ∈ ["easy"; "medium"; "hard"] →
       ∃ e, by_difficulty !! v = Some e ∧ entry_count e = Some (len kept)) ∧
    heap σ2 !! routes D = Some rs.
Proof.
  intros H kept. subst kept.
  change (filter (λ r, difficulty r = v) rs) with (of_level v rs).
  set (kept := of_level v rs).
  destruct (final_results_lookup model kept) as (Ho & Hm & _ & Hs).
  destruct (final_metrics_lookup kept) as (_ & _ & _ & _ & Hb).
  destruct (by_difficulty_lookup kept) as (He & Hmed & Hh).
  exists {| routes := fresh (dom (heap σ)) |}, (filtered kept σ),
    (evaluated model kept (filtered kept σ)),
    (final_results model kept), (final_metrics kept), (by_difficulty_of kept).
  split; [exact (filter_by_difficulty_run D v σ rs H) |].
  split; [exact (evaluate_run self model _ _ kept (filtered_dataset σ kept)) |].
  repeat (split; [assumption |]).
  split; [| split].
  - intros w Hw Hne.
    repeat (apply elem_of_cons in Hw as [-> | Hw]); [| | | inversion Hw].
    + rewrite He. unfold kept.
      rewrite of_level_again, decide_False by exact Hne. reflexivity.
    + rewrite Hmed. unfold kept.
      rewrite of_level_again, decide_False by exact Hne. reflexivity.
    + rewrite Hh. unfold kept.
      rewrite of_level_again, decide_False by exact Hne. reflexivity.
  - intros Hv.
    repeat (apply elem_of_cons in Hv as [-> | Hv]); [| | | inversion Hv].
    + eexists. split; [exact He |].
      rewrite bucket_count. unfold kept.
      rewrite of_level_again, decide_True by reflexivity. reflexivity.
    + eexists. split; [exact Hmed |].
      rewrite bucket_count. unfold kept.
      rewrite of_level_again, decide_True by reflexivity. reflexivity.
    + eexists. split; [exact Hh |].
      rewrite bucket_count. unfold kept.
      rewrite of_level_again, decide_True by reflexivity. reflexivity.
  - cbn [evaluated emit heap]. apply bucketed_keeps, filtered_keeps, H.
Qed.

Lemma evaluate_filtered_witness :
  ∃ (D' : RouteDataset) (σ1 σ2 : world) (results m by_difficulty : gmap string pyval),
    RouteDataset.filter_by_difficulty first_dataset "easy" three_world
      = (Returns D', σ1) ∧
    RouteEvaluator.evaluate default_evaluator HumanBaselineModel D' σ1
      = (Returns results, σ2) ∧
    results !! "dataset_size" = Some (PInt 2) ∧
    results !! "metrics" = Some (PDict m) ∧
    m !! "by_difficulty" = Some (PDict by_difficulty) ∧
    by_difficulty !! "hard" = Some (entry 0.0 0).
Proof.
  destruct (evaluate_filtered default_evaluator HumanBaselineModel first_dataset
              "easy" three_world three_routes eq_refl)
    as (D' & σ1 & σ2 & results & m & bd & F & E & Hs & _ & Hm & Hb & Hother & _).
  exists D', σ1, σ2, results, m, bd.
  repeat (split; [assumption |]).
  apply Hother; [do 2 right; left | discriminate].
Defined.

(** *** The orchestrator and the scripts *)

Lemma final_results_no_accuracy model rs :
  final_results model rs !! "accuracy" = None.
Proof.
  apply not_elem_of_dom. rewrite (proj1 (final_results_dom model rs)).
  rewrite !elem_of_union, !elem_of_singleton.
  intros [[[E | E] | E] | E]; discriminate.
Qed.

Lemma benchmark_evaluate_run self model D σ rs :
  heap σ !! routes D = Some rs →
  TurnBackBenchmark.evaluate self model D σ =
  (Returns (final_results model rs),
   emit [accuracy_reported "0.000"]
     (evaluated model rs (emit [starting model (len rs)] σ))).
Proof.
  intros H. unfold TurnBackBenchmark.evaluate.
  rewrite (bind_returns _ _ _ _ _ (len_run D σ rs H)).
  rewrite bind_run. cbn [log]. fold (starting model (len rs)).
  fold (emit [starting model (len rs)] σ).
  rewrite (bind_returns _ _ _ _ _ (evaluate_run _ model D (emit _ σ) rs H)).
  unfold dict_get. rewrite final_results_no_accuracy. reflexivity.
Qed.

(** X19. [TurnBackBenchmark.evaluate] returns the result of its evaluator
    unchanged.  The accuracy it logs at the end is read from the top
    level of the result, where there is no such key, so that the record
    says 0.000 for every model and dataset, while the accuracy in the
    metrics is 0.75. *)
Theorem benchmark_evaluate (self : TurnBackBenchmark) (model : BaseModel)
    (D : RouteDataset) (σ : world) (rs : list Route) :
  heap σ !! routes D = Some rs →
  ∃ (results m : gmap string pyval) (σ1 : world),
    RouteEvaluator.evaluate (evaluator self) model D
      (emit [starting model (len rs)] σ) = (Returns results, σ1) ∧
    TurnBackBenchmark.evaluate self model D σ
      = (Returns results, emit [accuracy_reported "0.000"] σ1) ∧
    results !! "accuracy" = None ∧
    results !! "metrics" = Some (PDict m) ∧
    m !! "accuracy" = Some (PFloat 0.75) ∧
    format_3f 0.75 = "0.750".
Proof.
  intros H.
  destruct (final_results_lookup model rs) as (_ & Hm & _).
  destruct (final_metrics_lookup rs) as (Ha & _).
  exists (final_results model rs), (final_metrics rs),
    (evaluated model rs (emit [starting model (len rs)] σ)).
  split; [exact (evaluate_run _ model D (emit _ σ) rs H) |].
  split; [exact (benchmark_evaluate_run self model D σ rs H) |].
  split; [apply final_results_no_accuracy |].
  split; [exact Hm |]. split; [exact Ha |].
  vm_compute. reflexivity.
Qed.

Lemma benchmark_evaluate_witness :
  ∃ (results : gmap string pyval) (σ1 : world),
    TurnBackBenchmark.evaluate
      {| benchmark_config := ∅; evaluator := default_evaluator |}
      HumanBaselineModel first_dataset three_world
      = (Returns results, emit [accuracy_reported "0.000"] σ1) ∧
    results !! "accuracy" = None.
Proof.
  destruct (benchmark_evaluate
              {| benchmark_config := ∅; evaluator := default_evaluator |}
              HumanBaselineModel first_dataset three_world three_routes eq_refl)
    as (results & m & σ1 & _ & E & Hnone & _).
  exists results, σ1. split; assumption.
Defined.

(** X20. [initialize_model] returns a model of the requested name for
    every name: the human baseline for the name [human_baseline], where
    the key is dropped, and otherwise an [LLMModel] with that name and
    key and no further configuration.  It creates no list and logs one
    record for the baseline and two for an [LLMModel]. *)
Theorem initialize_model_name (name : string) (api_key : option string) (σ : world) :
  ∃ (model : BaseModel) (σ' : world),
    initialize_model name api_key σ = (Returns model, σ') ∧
    model_name model = name ∧
    (name = "human_baseline" → model = HumanBaselineModel) ∧
    (name ≠ "human_baseline" → model = LLMModel name api_key ∅) ∧
    heap σ' = heap σ ∧
    trace σ' = trace σ ++
      (if decide (name = "human_baseline") then [model_initialized name]
       else [model_initialized name; client_initialized name]).
Proof.
  unfold initialize_model.
  destruct (decide (name = "human_baseline")) as [-> | Hne].
  - exists HumanBaselineModel, (emit [model_initialized "human_baseline"] σ).
    repeat split; try reflexivity. intros Hne. contradiction.
  - exists (LLMModel name api_key ∅),
      (emit [model_initialized name; client_initialized name] σ).
    split.
    { unfold LLM.__init__, LLM._initialize_client.
      rewrite bind_run. cbn [log]. rewrite bind_run.
      cbn [log trace heap mret M_ret].
      unfold emit. rewrite <- app_assoc. reflexivity. }
    repeat split; try reflexivity. intros E. contradiction.
Qed.

Lemma benchmark_init_run cfg σ :
  TurnBackBenchmark.__init__ cfg σ =
  (Returns {| benchmark_config := default ∅ cfg;
              evaluator :=
                {| config := default ∅ cfg;
                   metrics := ["accuracy"; "spatial_accuracy"; "semantic_similarity";
                               "route_deviation"; "landmark_recognition"] |} |},
   emit [evaluator_initialized;
         LogCall benchmark_logger INFO [Lit "TurnBack benchmark initialized"]] σ).
Proof.
  unfold TurnBackBenchmark.__init__. cbn zeta.
  rewrite (bind_returns _ _ _ _ _ (evaluator_init_run _ σ)).
  rewrite bind_run. cbn [log mret M_ret emit trace heap].
  rewrite <- app_assoc. reflexivity.
Qed.

Lemma sample_buckets :
  by_difficulty_of expected_routes =
  <["hard" := entry 0.50 3]>
  (<["medium" := entry 0.65 3]> (<["easy" := entry 0.80 4]> ∅)).
Proof. vm_compute. reflexivity. Qed.

Lemma file_opens_emit es σ :
  file_opens (trace (emit es σ)) = file_opens (trace σ) ++ file_opens es.
Proof. apply omap_app. Qed.

Lemma file_opens_predictions model rs : file_opens (prediction_events model rs) = [].
Proof.
  destruct model; [| reflexivity]. cbn.
  induction rs as [| r rs IH]; [reflexivity | exact IH].
Qed.

Lemma file_opens_evaluated model rs σ :
  file_opens (trace (evaluated model rs σ)) = file_opens (trace σ).
Proof.
  unfold evaluated. rewrite file_opens_emit, bucketed_trace.
  unfold file_opens at 1. rewrite omap_app. fold (file_opens (trace (emit (prediction_events model rs) σ))).
  rewrite file_opens_emit, file_opens_predictions. cbn.
  rewrite !app_nil_r. reflexivity.
Qed.

Lemma load_dataset_files dataset_name data_path σ :
  ∃ σ', load_dataset dataset_name data_path σ
          = (Returns {| routes := fresh (dom (heap σ)) |}, σ') ∧
        heap σ' = <[fresh (dom (heap σ)) := expected_routes]> (heap σ) ∧
        file_opens (trace σ') = file_opens (trace σ).
Proof.
  eexists. split; [apply load_dataset_run |]. split; [reflexivity |].
  rewrite file_opens_emit. cbn. apply app_nil_r.
Qed.

(** X21. The calls of the end-to-end test, in its order: [load_dataset],
    [HumanBaselineModel()], [TurnBackBenchmark()] and
    [benchmark.evaluate(model, dataset)].  For every dataset name the
    result has the keys the test asks for, [overall_score] and [metrics],
    the name of the human baseline, a size of 10, the score 0.723, and
    the difficulty entries 0.80 over 4 easy routes, 0.65 over 3 medium
    routes and 0.50 over 3 hard routes; none of the four calls opens a
    file. *)
Theorem end_to_end (dataset_name : string) (σ : world) :
  ∃ (results m : gmap string pyval) (σ' : world),
    (dataset ← load_dataset dataset_name None;
     model ← HumanBaseline.__init__;
     benchmark ← TurnBackBenchmark.__init__ None;
     TurnBackBenchmark.evaluate benchmark model dataset) σ = (Returns results, σ') ∧
    results !! "model_name" = Some (PStr "human_baseline") ∧
    results !! "dataset_size" = Some (PInt 10) ∧
    results !! "overall_score" = Some (PFloat 0.723) ∧
    results !! "metrics" = Some (PDict m) ∧
    m !! "by_difficulty"
      = Some (PDict (<["hard" := entry 0.50 3]>
                    (<["medium" := entry 0.65 3]>
                    (<["easy" := entry 0.80 4]> ∅)))) ∧
    file_opens (trace σ') = file_opens (trace σ).
Proof.
  destruct (load_dataset_files dataset_name None σ) as (σ1 & E1 & H1 & F1).
  set (D := {| routes := fresh (dom (heap σ)) |}) in *.
  set (σ2 := emit [model_initialized "human_baseline"] σ1).
  assert (E2 : HumanBaseline.__init__ σ1 = (Returns HumanBaselineModel, σ2))
    by reflexivity.
  assert (K : heap (emit [evaluator_initialized;
                          LogCall benchmark_logger INFO
                            [Lit "TurnBack benchmark initialized"]] σ2)
              !! routes D = Some expected_routes).
  { cbn [emit heap σ2]. unfold σ2. cbn [emit heap].
    rewrite H1. apply lookup_insert_eq. }
  destruct (final_results_lookup HumanBaselineModel expected_routes)
    as (Ho & Hm & Hn & Hs).
  destruct (final_metrics_lookup expected_routes) as (_ & _ & _ & _ & Hb).
  eexists (final_results HumanBaselineModel expected_routes),
    (final_metrics expected_routes), _.
  split.
  { rewrite (bind_returns _ _ _ _ _ E1).
    rewrite (bind_returns _ _ _ _ _ E2).
    rewrite (bind_returns _ _ _ _ _ (benchmark_init_run None σ2)).
    exact (benchmark_evaluate_run _ HumanBaselineModel D _ expected_routes K). }
  split; [exact Hn |].
  split; [exact Hs |]. split; [exact Ho |]. split; [exact Hm |].
  split; [rewrite Hb, sample_buckets; reflexivity |].
  rewrite file_opens_emit, file_opens_evaluated, !file_opens_emit.
  unfold σ2. rewrite file_opens_emit, F1.
  cbn. rewrite !app_nil_r. reflexivity.
Qed.
